(** * Litter-box activity statistics

    A shallow embedding of [fetch_data.py]: the event reducer and the
    statistics of [parse_activity_history], and the document built by
    [build_data_json], followed by the properties proved about them.

    Conventions of the model.
    - A Python [float] is an IEEE-754 binary64 value: Rocq's primitive
      [float], with the kernel's operations and their specification in
      [SpecFloat].
    - A Python [int] is a [Z].
    - An aware [datetime] is an instant: microseconds since the epoch, a [Z];
      a [timedelta] is a number of microseconds, a [Z].
    - A [str] is a [string] whose characters are the code points 0..255.
    - An exception is a value of [exn], threaded through [result]. *)

From Stdlib Require Import ZArith List String Ascii Bool Lia Floats DecimalString Sorted.
From Stdlib Require Import Permutation.
Import ListNotations.
Local Open Scope string_scope.
Local Open Scope list_scope.
Local Open Scope Z_scope.
Set Warnings "-inexact-float,-register-all".

(** ** Exceptions *)

Inductive exn : Set :=
| ZeroDivisionError
| ValueError
| OverflowError
| IndexError
| AttributeError.

Inductive result (A : Type) : Type :=
| Ok (a : A)
| Raise (e : exn).
Arguments Ok {A} a.
Arguments Raise {A} e.

Definition bind {A B : Type} (m : result A) (k : A -> result B) : result B :=
  match m with
  | Ok a => k a
  | Raise e => Raise e
  end.

Notation "x <- m ;; k" := (bind m (fun x => k))
  (at level 61, m at next level, right associativity).

(** The computation ends in a [ZeroDivisionError]. *)
Definition divides_by_zero {A : Type} (r : result A) : bool :=
  match r with
  | Raise ZeroDivisionError => true
  | _ => false
  end.

(** ** Python numbers *)

Module PyFloat.

(** The binary64 value nearest to [p / q], ties to even: what CPython's
    [strtod] and its [int / int] produce.  [SFdiv] rounds the exact quotient
    of two integer significands of any size. *)
Definition of_ratio (p : Z) (q : positive) : float :=
  match p with
  | Z0 => 0%float
  | Zpos m => SF2Prim (SFdiv prec emax (S754_finite false m 0) (S754_finite false q 0))
  | Zneg m => SF2Prim (SFdiv prec emax (S754_finite true m 0) (S754_finite false q 0))
  end.

(** [float(n)] for an int [n]. *)
Definition of_int (n : Z) : result float :=
  let f := of_ratio n 1 in
  if is_infinity f then Raise OverflowError else Ok f.

(** [a / b] for ints [a] and [b]. *)
Definition int_truediv (a b : Z) : result float :=
  match b with
  | Z0 => Raise ZeroDivisionError
  | Zpos q =>
      let f := of_ratio a q in
      if is_infinity f then Raise OverflowError else Ok f
  | Zneg q =>
      let f := if (a =? 0)%Z then (-0)%float else of_ratio (- a) q in
      if is_infinity f then Raise OverflowError else Ok f
  end.

(** [x / y] for floats. *)
Definition truediv (x y : float) : result float :=
  if (y =? 0)%float then Raise ZeroDivisionError else Ok (x / y)%float.

(** [bool(x)]. *)
Definition truthy (x : float) : bool := negb (x =? 0)%float.

(** [num / den] rounded to the nearest integer, ties to even
    ([0 <= num], [0 < den]). *)
Definition half_even (num den : Z) : Z :=
  let q := num / den in
  let r := num mod den in
  match 2 * r ?= den with
  | Lt => q
  | Gt => q + 1
  | Eq => if Z.even q then q else q + 1
  end.

(** [round(x, ndigits)] for [0 <= ndigits]: the exact value of [x] is
    rounded to [ndigits] decimals, ties to even, and the decimal is converted
    back to the nearest float; zeros, infinities and nan round to themselves,
    and the sign survives a rounding to zero. *)
Definition round (x : float) (ndigits : N) : float :=
  match Prim2SF x with
  | S754_finite s m e =>
      let p := 10 ^ Z.of_N ndigits in
      let k := match e with
               | Zneg d => half_even (Zpos m * p) (2 ^ Zpos d)
               | _ => Zpos m * 2 ^ e * p
               end in
      if (k =? 0)%Z then (if s then (-0)%float else 0%float)
      else of_ratio (if s then - k else k) (Z.to_pos p)
  | _ => x
  end.

(** [int(x)]: truncation toward zero. *)
Definition to_int (x : float) : result Z :=
  match Prim2SF x with
  | S754_zero _ => Ok 0
  | S754_finite s m e =>
      let a := match e with
               | Zneg d => Zpos m / 2 ^ Zpos d
               | _ => Zpos m * 2 ^ e
               end in
      Ok (if s then - a else a)
  | S754_infinity _ => Raise OverflowError
  | S754_nan => Raise ValueError
  end.

(** [sum(xs)] over floats: the items are added to the start value 0 from
    left to right, each addition rounded (CPython 3.12 and later carry a
    correction for the rounding errors, which changes nothing for one or
    two items). *)
Definition sum (xs : list float) : float :=
  fold_left PrimFloat.add xs 0%float.

(** [min(xs)] and [max(xs)] keep the first of several equal extremes. *)
Definition min_from (x : float) (xs : list float) : float :=
  fold_left (fun best y => if (y <? best)%float then y else best) xs x.

Definition max_from (x : float) (xs : list float) : float :=
  fold_left (fun best y => if (best <? y)%float then y else best) xs x.

End PyFloat.

(** A number that is an int on one path and a float on another. *)
Inductive pynum : Set :=
| NInt (z : Z)
| NFloat (f : float).

Definition pynum_truthy (n : pynum) : bool :=
  match n with
  | NInt z => negb (z =? 0)%Z
  | NFloat f => PyFloat.truthy f
  end.

(** [n / d] for an int [n]. *)
Definition int_div_num (n : Z) (d : pynum) : result float :=
  match d with
  | NInt z => PyFloat.int_truediv n z
  | NFloat f => x <- PyFloat.of_int n ;; PyFloat.truediv x f
  end.

(** [round(n, ndigits)]: an int is returned unchanged for [0 <= ndigits]. *)
Definition round_num (n : pynum) (ndigits : N) : pynum :=
  match n with
  | NInt z => NInt z
  | NFloat f => NFloat (PyFloat.round f ndigits)
  end.

(** ** Strings *)

(** [str(n)] for an int. *)
Definition str_of_int (n : Z) : string := NilZero.string_of_int (Z.to_int n).

(** [needle in hay]. *)
Fixpoint contains (needle hay : string) : bool :=
  match hay with
  | EmptyString => prefix needle hay
  | String _ rest => prefix needle hay || contains needle rest
  end.

Definition is_digit (c : ascii) : bool :=
  let n := N_of_ascii c in (48 <=? n)%N && (n <=? 57)%N.

Definition is_dot (c : ascii) : bool := Ascii.eqb c ".".

(** What [\s] matches in a [str] pattern, among the code points 0..255. *)
Definition is_space (c : ascii) : bool :=
  let n := N_of_ascii c in
  ((9 <=? n)%N && (n <=? 13)%N) || ((28 <=? n)%N && (n <=? 32)%N)
  || (n =? 133)%N || (n =? 160)%N.

(** The longest prefix whose characters satisfy [p], and what follows it. *)
Fixpoint span (p : ascii -> bool) (s : string) : string * string :=
  match s with
  | EmptyString => (EmptyString, EmptyString)
  | String c rest =>
      if p c then let (a, b) := span p rest in (String c a, b)
      else (EmptyString, s)
  end.

(** A match of [([\d.]+)\s*lbs] anchored at the start of [s]: its group 1.
    The three parts of the pattern accept disjoint characters, so the greedy
    match is the only candidate. *)
Definition match_lbs_here (s : string) : option string :=
  let (g, r) := span (fun c => is_digit c || is_dot c) s in
  match g with
  | EmptyString => None
  | _ => let (_, r') := span is_space r in
         if prefix "lbs" r' then Some g else None
  end.

(** [re.search(r"([\d.]+)\s*lbs", s)]: group 1 of the leftmost match. *)
Fixpoint search_lbs (s : string) : option string :=
  match match_lbs_here s with
  | Some g => Some g
  | None => match s with
            | EmptyString => None
            | String _ rest => search_lbs rest
            end
  end.

(** The value of a run of decimal digits, most significant first. *)
Fixpoint digits_value (acc : Z) (s : string) : Z :=
  match s with
  | EmptyString => acc
  | String c rest => digits_value (10 * acc + (Z.of_N (N_of_ascii c) - 48)) rest
  end.

Fixpoint all_digits (s : string) : bool :=
  match s with
  | EmptyString => true
  | String c rest => is_digit c && all_digits rest
  end.

(** [float(g)] for a string [g] of digits and dots: digits with at most one
    dot and at least one digit, else [ValueError]. *)
Definition float_of_str (g : string) : result float :=
  let (ip, r) := span is_digit g in
  let fp := match r with
            | String "." f => f
            | _ => r
            end in
  if all_digits fp && negb (String.length ip + String.length fp =? 0)%nat
  then Ok (PyFloat.of_ratio (digits_value 0 (ip ++ fp)%string)
             (Z.to_pos (10 ^ Z.of_nat (String.length fp))))
  else Raise ValueError.

(** ** Data model *)

Definition datetime : Set := Z.
Definition timedelta : Set := Z.

(** [td.total_seconds()]: the microseconds divided by [10**6]. *)
Definition total_seconds (td : timedelta) : result float :=
  PyFloat.int_truediv td 1000000.

(** [x / n] for a float [x] and an int [n]: [n] is converted to a float,
    which is the zero divisor exactly when [n] is 0. *)
Definition float_div_int (x : float) (n : Z) : result float :=
  d <- PyFloat.of_int n ;;
  if (n =? 0)%Z then Raise ZeroDivisionError else Ok (x / d)%float.

(** A raw event: [action] is [str(activity.action)]. *)
Record Activity : Set := {
  action : string;
  timestamp : datetime
}.

(** The dataclass [CatVisit]; [cv_timestamp] is its field [timestamp]. *)
Record CatVisit : Set := {
  cv_timestamp : datetime;
  weight_lbs : option float;
  clean_cycle_duration_seconds : option float
}.

(** [CatVisit(timestamp=t)]. *)
Definition new_visit (t : datetime) : CatVisit :=
  {| cv_timestamp := t; weight_lbs := None; clean_cycle_duration_seconds := None |}.

(** The fixed local zone, seen through what the code reads of
    [t.astimezone(LOCAL_TZ)]: its [hour], its [weekday()] and its
    [strftime(fmt)]. *)
Record ZoneInfo : Set := {
  local_hour : datetime -> Z;
  local_weekday : datetime -> Z;
  local_strftime : string -> datetime -> string
}.

(** ** The reducer: the loop of [parse_activity_history] *)

Module Loop.

(** The local variables the loop updates. *)
Record state : Set := {
  visits : list CatVisit;
  weights : list float;
  clean_cycles_completed : Z;
  sensor_interruptions : Z;
  current_visit : option CatVisit;
  cycle_start_time : option datetime
}.

Definition init : state :=
  {| visits := []; weights := []; clean_cycles_completed := 0;
     sensor_interruptions := 0; current_visit := None;
     cycle_start_time := None |}.

(** The tests of the branches, in the order of the [if]/[elif] chain. *)
Definition is_cat_detected (action_str : string) : bool :=
  contains "CAT_DETECTED" action_str || (action_str =? "CD")%string.

Definition is_weight_recorded (action_str : string) : bool :=
  contains "Pet Weight Recorded" action_str.

Definition is_cycle_started (action_str : string) : bool :=
  contains "CLEAN_CYCLE:" action_str || (action_str =? "CCP")%string.

Definition is_cycle_completed (action_str : string) : bool :=
  contains "CLEAN_CYCLE_COMPLETE" action_str || (action_str =? "CCC")%string.

Definition is_sensor_interrupted (action_str : string) : bool :=
  contains "CAT_SENSOR_INTERRUPTED" action_str || (action_str =? "CSI")%string.

(** One iteration of the loop body. *)
Definition step (s : state) (activity : Activity) : result state :=
  let action_str := action activity in
  let timestamp := timestamp activity in
  if is_cat_detected action_str then
    Ok {| visits := visits s; weights := weights s;
          clean_cycles_completed := clean_cycles_completed s;
          sensor_interruptions := sensor_interruptions s;
          current_visit := Some (new_visit timestamp);
          cycle_start_time := cycle_start_time s |}
  else if is_weight_recorded action_str then
    match search_lbs action_str with
    | Some g =>
        weight <- float_of_str g ;;
        Ok {| visits := visits s; weights := weights s ++ [weight];
              clean_cycles_completed := clean_cycles_completed s;
              sensor_interruptions := sensor_interruptions s;
              current_visit :=
                match current_visit s with
                | Some v =>
                    Some {| cv_timestamp := cv_timestamp v;
                            weight_lbs := Some weight;
                            clean_cycle_duration_seconds :=
                              clean_cycle_duration_seconds v |}
                | None => None
                end;
              cycle_start_time := cycle_start_time s |}
    | None => Ok s
    end
  else if is_cycle_started action_str then
    Ok {| visits := visits s; weights := weights s;
          clean_cycles_completed := clean_cycles_completed s;
          sensor_interruptions := sensor_interruptions s;
          current_visit := current_visit s;
          cycle_start_time := Some timestamp |}
  else if is_cycle_completed action_str then
    visit <- match cycle_start_time s, current_visit s with
             | Some start, Some v =>
                 duration <- total_seconds (timestamp - start) ;;
                 Ok (Some {| cv_timestamp := cv_timestamp v;
                             weight_lbs := weight_lbs v;
                             clean_cycle_duration_seconds := Some duration |})
             | _, _ => Ok (current_visit s)
             end ;;
    Ok {| visits := match visit with
                    | Some v => visits s ++ [v]
                    | None => visits s
                    end;
          weights := weights s;
          clean_cycles_completed := clean_cycles_completed s + 1;
          sensor_interruptions := sensor_interruptions s;
          current_visit := None;
          cycle_start_time := None |}
  else if is_sensor_interrupted action_str then
    Ok {| visits := visits s; weights := weights s;
          clean_cycles_completed := clean_cycles_completed s;
          sensor_interruptions := sensor_interruptions s + 1;
          current_visit := current_visit s;
          cycle_start_time := cycle_start_time s |}
  else Ok s.

(** The branch of the chain an action takes. *)
Inductive EventKind : Set :=
| CatDetected
| WeightRecorded
| CycleStarted
| CycleCompleted
| SensorInterrupted
| Unrecognized.

Definition kind_of (activity : Activity) : EventKind :=
  let action_str := action activity in
  if is_cat_detected action_str then CatDetected
  else if is_weight_recorded action_str then WeightRecorded
  else if is_cycle_started action_str then CycleStarted
  else if is_cycle_completed action_str then CycleCompleted
  else if is_sensor_interrupted action_str then SensorInterrupted
  else Unrecognized.

(** [s] with another open visit. *)
Definition with_current_visit (s : state) (v : option CatVisit) : state :=
  {| visits := visits s; weights := weights s;
     clean_cycles_completed := clean_cycles_completed s;
     sensor_interruptions := sensor_interruptions s;
     current_visit := v;
     cycle_start_time := cycle_start_time s |}.

(** The loop over a chronological (oldest first) sequence. *)
Fixpoint run (s : state) (chronological : list Activity) : result state :=
  match chronological with
  | [] => Ok s
  | activity :: rest => s' <- step s activity ;; run s' rest
  end.

End Loop.

(** ** Statistics: the rest of [parse_activity_history] *)

(** An entry of [visits_by_date]. *)
Record DateInfo : Set := {
  count : Z;
  weekday : Z;
  weekday_name : string;
  display : string
}.

(** The dict [parse_activity_history] returns; a dict keeps its keys in
    insertion order, so the two bucket dicts are association lists. *)
Record Stats : Set := {
  visits : list CatVisit;
  weights : list float;
  clean_cycles_completed : Z;
  sensor_interruptions : Z;
  date_range : option datetime * option datetime;
  days_covered : pynum;
  visits_by_hour : list (Z * Z);
  visits_by_date : list (string * DateInfo);
  longest_gap : option timedelta;
  shortest_gap : option timedelta;
  weight_trend : option string;
  weight_change : option float;
  personality_traits : list string
}.

(** [f] over a list, stopping at the first exception. *)
Fixpoint map_result {A B : Type} (f : A -> result B) (l : list A) : result (list B) :=
  match l with
  | [] => Ok []
  | x :: rest => y <- f x ;; ys <- map_result f rest ;; Ok (y :: ys)
  end.

(** [min(l)] and [max(l)] of a non-empty list of ints, [None] for the empty one. *)
Definition min_opt (l : list Z) : option Z :=
  match l with
  | [] => None
  | x :: rest => Some (fold_left Z.min rest x)
  end.

Definition max_opt (l : list Z) : option Z :=
  match l with
  | [] => None
  | x :: rest => Some (fold_left Z.max rest x)
  end.

(** [max(x :: xs, key=key)]: the first item with the greatest key. *)
Definition max_by {A : Type} (key : A -> Z) (x : A) (xs : list A) : A :=
  fold_left (fun best y => if key best <? key y then y else best) xs x.

Definition sum_ints (l : list Z) : Z := fold_left Z.add l 0.

(** [d[h] += 1] on a [defaultdict(int)]: a new key goes last. *)
Fixpoint incr_hour (h : Z) (d : list (Z * Z)) : list (Z * Z) :=
  match d with
  | [] => [(h, 1)]
  | (k, n) :: rest =>
      if (k =? h)%Z then (k, n + 1) :: rest else (k, n) :: incr_hour h rest
  end.

(** [d.get(h, 0)]. *)
Fixpoint hour_count (d : list (Z * Z)) (h : Z) : Z :=
  match d with
  | [] => 0
  | (k, n) :: rest => if (k =? h)%Z then n else hour_count rest h
  end.

(** [sum(d.get(h, 0) for h in range(lo, lo + len))]. *)
Definition sum_hours (d : list (Z * Z)) (lo len : nat) : Z :=
  sum_ints (map (fun h => hour_count d (Z.of_nat h)) (seq lo len)).

(** The date bucket of [key] gets one more visit; [fresh] is the entry
    created when the key is new. *)
Fixpoint incr_date (key : string) (fresh : DateInfo)
    (d : list (string * DateInfo)) : list (string * DateInfo) :=
  let bump i := {| count := count i + 1; weekday := weekday i;
                   weekday_name := weekday_name i; display := display i |} in
  match d with
  | [] => [(key, bump fresh)]
  | (k, i) :: rest =>
      if (k =? key)%string then (k, bump i) :: rest else (k, i) :: incr_date key fresh rest
  end.

(** The gaps between consecutive visits, in visit order. *)
Fixpoint visit_gaps_of (visits : list CatVisit) : list timedelta :=
  match visits with
  | v0 :: (v1 :: _) as rest => (cv_timestamp v1 - cv_timestamp v0) :: visit_gaps_of rest
  | _ => []
  end.

(** The weight trend block: [(weight_trend, weight_change)]. *)
Definition weight_trend_change (weights : list float)
  : result (option string * option float) :=
  if (4 <=? List.length weights)%nat then
    let mid := (List.length weights / 2)%nat in
    first_half_avg <-
      float_div_int (PyFloat.sum (firstn mid weights)) (Z.of_nat mid) ;;
    second_half_avg <-
      float_div_int (PyFloat.sum (skipn mid weights))
        (Z.of_nat (List.length weights - mid)) ;;
    let weight_change := (second_half_avg - first_half_avg)%float in
    let weight_trend :=
      if (0.1 <? weight_change)%float then "gaining"
      else if (weight_change <? -0.1)%float then "losing"
      else "stable" in
    Ok (Some weight_trend, Some weight_change)
  else Ok (None, None).

(** The time-of-day block of the personality traits: what it appends. *)
Definition time_of_day_traits (visits_by_hour : list (Z * Z)) : list string :=
  match visits_by_hour with
  | [] => []
  | _ :: _ =>
      let night_visits := sum_hours visits_by_hour 0 6 in
      let morning_visits := sum_hours visits_by_hour 6 6 in
      let afternoon_visits := sum_hours visits_by_hour 12 6 in
      let evening_visits := sum_hours visits_by_hour 18 6 in
      let dominant_period :=
        max_by fst (night_visits, "Night Owl")
          [(morning_visits, "Early Bird");
           (afternoon_visits, "Afternoon Aristocat");
           (evening_visits, "Evening Eliminator")] in
      if 0 <? fst dominant_period then [snd dominant_period] else []
  end.

Section Statistics.

(** [LOCAL_TZ = ZoneInfo("America/Los_Angeles")]. *)
Variable LOCAL_TZ : ZoneInfo.

(** [x ** y] on floats, as CPython computes it with the platform's [pow]. *)
Variable float_pow : float -> float -> result float.

Definition hours_of_visits (visits : list CatVisit) : list (Z * Z) :=
  fold_left
    (fun d visit => incr_hour (local_hour LOCAL_TZ (cv_timestamp visit)) d)
    visits [].

Definition dates_of_visits (visits : list CatVisit) : list (string * DateInfo) :=
  fold_left
    (fun d visit =>
       let t := cv_timestamp visit in
       incr_date (local_strftime LOCAL_TZ "%Y-%m-%d" t)
         {| count := 0;
            weekday := local_weekday LOCAL_TZ t;
            weekday_name := local_strftime LOCAL_TZ "%a" t;
            display := local_strftime LOCAL_TZ "%m/%d" t |} d)
    visits [].

(** The regularity block. *)
Definition regularity_traits (visit_gaps : list timedelta) : result (list string) :=
  match visit_gaps with
  | [] => Ok []
  | _ :: _ =>
      let n := Z.of_nat (List.length visit_gaps) in
      secs <- map_result total_seconds visit_gaps ;;
      avg_gap <- float_div_int (PyFloat.sum secs) n ;;
      squares <- map_result (fun x => float_pow (x - avg_gap)%float 2%float) secs ;;
      gap_variance <- float_div_int (PyFloat.sum squares) n ;;
      root <- float_pow gap_variance 0.5%float ;;
      std_dev_hours <- float_div_int root 3600 ;;
      Ok (if (std_dev_hours <? 2)%float then ["Creature of Habit"]
          else if (6 <? std_dev_hours)%float then ["Chaotic Pooper"]
          else [])
  end.

(** The weekly rhythm block. *)
Definition weekly_traits (visits_by_date : list (string * DateInfo))
  : result (list string) :=
  match visits_by_date with
  | [] => Ok []
  | _ :: _ =>
      let values := map snd visits_by_date in
      let weekend := filter (fun d => 5 <=? weekday d) values in
      let weekdays := filter (fun d => weekday d <? 5) values in
      let weekend_visits := sum_ints (map count weekend) in
      let weekday_visits := sum_ints (map count weekdays) in
      let or_1 n := if (n =? 0)%Z then 1 else n in
      let weekend_days := or_1 (Z.of_nat (List.length weekend)) in
      let weekday_days := or_1 (Z.of_nat (List.length weekdays)) in
      weekend_rate <- PyFloat.int_truediv weekend_visits weekend_days ;;
      weekday_rate <- PyFloat.int_truediv weekday_visits weekday_days ;;
      Ok (if (weekday_rate * 1.3 <? weekend_rate)%float then ["Weekend Warrior"]
          else if (weekend_rate * 1.3 <? weekday_rate)%float then ["Weekday Regular"]
          else [])
  end.

(** [activities] is newest first, as the source of the events supplies it. *)
Definition parse_activity_history (activities : list Activity) : result Stats :=
  s <- Loop.run Loop.init (rev activities) ;;
  let visits := Loop.visits s in
  let weights := Loop.weights s in
  range <-
    match map timestamp activities with
    | [] => Ok (None, None, NInt 0)
    | t :: ts =>
        let date_range_start := fold_left Z.min ts t in
        let date_range_end := fold_left Z.max ts t in
        secs <- total_seconds (date_range_end - date_range_start) ;;
        days <- float_div_int secs 86400 ;;
        Ok (Some date_range_start, Some date_range_end, NFloat days)
    end ;;
  let visits_by_hour := hours_of_visits visits in
  let visits_by_date := dates_of_visits visits in
  let visit_gaps := visit_gaps_of visits in
  trend <- weight_trend_change weights ;;
  let time_of_day := time_of_day_traits visits_by_hour in
  regularity <- regularity_traits visit_gaps ;;
  weekly <- weekly_traits visits_by_date ;;
  Ok {| visits := visits;
        weights := weights;
        clean_cycles_completed := Loop.clean_cycles_completed s;
        sensor_interruptions := Loop.sensor_interruptions s;
        date_range := fst range;
        days_covered := snd range;
        visits_by_hour := visits_by_hour;
        visits_by_date := visits_by_date;
        longest_gap := max_opt visit_gaps;
        shortest_gap := min_opt visit_gaps;
        weight_trend := fst trend;
        weight_change := snd trend;
        personality_traits := time_of_day ++ regularity ++ weekly |}.

(** ** The document: [build_data_json] *)

(** The values the document is made of. *)
Inductive pyval : Set :=
| PNone
| PBool (b : bool)
| PInt (z : Z)
| PFloat (f : float)
| PStr (s : string)
| PList (l : list pyval)
| PDict (d : list (string * pyval)).

Definition of_num (n : pynum) : pyval :=
  match n with
  | NInt z => PInt z
  | NFloat f => PFloat f
  end.

(** A string or [None]. *)
Definition of_opt_str (o : option string) : pyval :=
  match o with
  | Some s => PStr s
  | None => PNone
  end.

(** [d.get(key, default)]: [entry] is [Some v] when [d] has the key, with
    value [v]; the default is the result for an absent key only. *)
Definition dict_get {A : Type} (entry : option A) (default : A) : A :=
  match entry with
  | Some v => v
  | None => default
  end.

(** [v or default] for a number or [None] [v]. *)
Definition or_else (v : option pynum) (default : pynum) : pynum :=
  match v with
  | Some n => if pynum_truthy n then n else default
  | None => default
  end.

(** [l[i]]: a negative index counts from the end. *)
Definition list_index {A : Type} (l : list A) (i : Z) : result A :=
  let n := Z.of_nat (List.length l) in
  let j := if i <? 0 then i + n else i in
  if (0 <=? j) && (j <? n) then
    match nth_error l (Z.to_nat j) with
    | Some x => Ok x
    | None => Raise IndexError
    end
  else Raise IndexError.

(** [sorted(keys)] for strings, compared code point by code point. *)
Fixpoint insert_sorted (k : string) (l : list string) : list string :=
  match l with
  | [] => [k]
  | x :: rest => if String.ltb k x then k :: l else x :: insert_sorted k rest
  end.

Definition sorted (keys : list string) : list string :=
  fold_right insert_sorted [] (rev keys).

(** [d[key]] for a key of [d]. *)
Fixpoint date_lookup (d : list (string * DateInfo)) (key : string) : option DateInfo :=
  match d with
  | [] => None
  | (k, i) :: rest => if (k =? key)%string then Some i else date_lookup rest key
  end.

Definition format_duration (td : timedelta) : result string :=
  secs <- total_seconds td ;;
  total_seconds <- PyFloat.to_int secs ;;
  let hours := total_seconds / 3600 in
  let remainder := total_seconds mod 3600 in
  let minutes := remainder / 60 in
  Ok (if 0 <? hours
      then (str_of_int hours ++ "h " ++ str_of_int minutes ++ "m")%string
      else (str_of_int minutes ++ "m")%string).

(** [format_duration(gap) if gap else "N/A"]: a zero [timedelta] is false. *)
Definition gap_display (gap : option timedelta) : result string :=
  match gap with
  | Some td => if (td =? 0)%Z then Ok "N/A" else format_duration td
  | None => Ok "N/A"
  end.

Definition day_names : list string :=
  ["Monday"; "Tuesday"; "Wednesday"; "Thursday"; "Friday"; "Saturday"; "Sunday"].

(** [generated_at] is [datetime.now(LOCAL_TZ).isoformat()], read by the caller. *)
Definition build_data_json (generated_at : string) (stats : Stats)
    (robot_name cat_name : string) : result pyval :=
  let (start, end_) := date_range stats in
  let total_visits := Z.of_nat (List.length (visits stats)) in
  let days := if pynum_truthy (days_covered stats) then days_covered stats else NInt 1 in
  visits_per_day <- int_div_num total_visits days ;;
  let weights := weights stats in
  avg_weight <-
    match weights with
    | [] => Ok (NInt 0)
    | _ :: _ =>
        x <- float_div_int (PyFloat.sum weights) (Z.of_nat (List.length weights)) ;;
        Ok (NFloat x)
    end ;;
  let min_weight :=
    match weights with
    | [] => NInt 0
    | w :: ws => NFloat (PyFloat.min_from w ws)
    end in
  let max_weight :=
    match weights with
    | [] => NInt 0
    | w :: ws => NFloat (PyFloat.max_from w ws)
    end in
  let by_hour := visits_by_hour stats in
  let peak_hour :=
    match by_hour with
    | [] => 0
    | kv :: rest => fst (max_by snd kv rest)
    end in
  let peak_count := hour_count by_hour peak_hour in
  let visits_by_date := visits_by_date stats in
  let sorted_dates := sorted (map fst visits_by_date) in
  let chart_data :=
    flat_map
      (fun d =>
         match date_lookup visits_by_date d with
         | Some i => [PDict [("weekday", PStr (weekday_name i));
                             ("display", PStr (display i));
                             ("count", PInt (count i))]]
         | None => []
         end)
      sorted_dates in
  busiest_date <-
    match visits_by_date with
    | [] => Ok PNone
    | kv :: rest =>
        let busiest_info := snd (max_by (fun e => count (snd e)) kv rest) in
        day_name <- list_index day_names (weekday busiest_info) ;;
        Ok (PDict [("day_name", PStr day_name);
                   ("display", PStr (display busiest_info));
                   ("count", PInt (count busiest_info));
                   ("is_weekend", PBool (5 <=? weekday busiest_info))])
    end ;;
  longest <- gap_display (longest_gap stats) ;;
  shortest <- gap_display (shortest_gap stats) ;;
  total <- PyFloat.of_int total_visits ;;
  lbs <- float_div_int (total * 2.5)%float 16 ;;
  range_display <-
    match start with
    | Some s =>
        match end_ with
        | Some e =>
            Ok (local_strftime LOCAL_TZ "%b %d" s ++ " - "
                ++ local_strftime LOCAL_TZ "%b %d, %Y" e)%string
        | None => Raise AttributeError
        end
    | None => Ok EmptyString
    end ;;
  Ok (PDict [
    ("cat_name", PStr cat_name);
    ("robot_name", PStr robot_name);
    ("generated_at", PStr generated_at);
    ("date_range", PDict [
      ("start", of_opt_str (option_map (local_strftime LOCAL_TZ "%b %d") start));
      ("end", of_opt_str (option_map (local_strftime LOCAL_TZ "%b %d, %Y") end_));
      ("display", PStr range_display)]);
    ("personality_traits", PList (map PStr (personality_traits stats)));
    ("total_visits", PInt total_visits);
    ("visits_per_day", PFloat (PyFloat.round visits_per_day 1));
    ("chart_data", PList chart_data);
    ("timing", PDict [
      ("longest_gap", PStr longest);
      ("shortest_gap", PStr shortest)]);
    ("weight", PDict [
      ("average", of_num (round_num avg_weight 1));
      ("min", of_num (round_num min_weight 1));
      ("max", of_num (round_num max_weight 1));
      ("trend", dict_get (Some (of_opt_str (weight_trend stats))) (PStr "stable"));
      ("change",
        of_num (round_num
                  (or_else
                     (dict_get (Some (option_map NFloat (weight_change stats)))
                        (Some (NInt 0)))
                     (NInt 0)) 2))]);
    ("peak_hour", PDict [
      ("hour", PInt peak_hour);
      ("count", PInt peak_count);
      ("display",
        PStr (str_of_int (if (peak_hour mod 12 =? 0)%Z then 12 else peak_hour mod 12)
              ++ ":00 " ++ (if (peak_hour <? 12)%Z then "AM" else "PM"))%string)]);
    ("busiest_date", busiest_date);
    ("robot_stats", PDict [
      ("clean_cycles", PInt (clean_cycles_completed stats));
      ("interruptions", PInt (sensor_interruptions stats))]);
    ("output", PDict [
      ("oz", PFloat (PyFloat.round (total * 2.5)%float 0));
      ("lbs", PFloat (PyFloat.round lbs 1))])]).

End Statistics.

(** ** Reading the document *)

(** [d[key]] on a document: [None] when [d] is not a dict or lacks the key. *)
Definition field (key : string) (v : pyval) : option pyval :=
  match v with
  | PDict d =>
      match find (fun kv => (fst kv =? key)%string) d with
      | Some kv => Some (snd kv)
      | None => None
      end
  | _ => None
  end.

(** [d[k1][k2]]. *)
Definition field2 (k1 k2 : string) (v : pyval) : option pyval :=
  match field k1 v with
  | Some w => field k2 w
  | None => None
  end.

(** ** A zone and a power function to run the model on concrete inputs *)

Module Sample.

(** UTC itself; [strftime] renders the format followed by the day number. *)
Definition zone : ZoneInfo :=
  {| local_hour := fun t => (t / 3600000000) mod 24;
     local_weekday := fun t => (t / 86400000000 + 3) mod 7;
     local_strftime := fun fmt t =>
       (fmt ++ "@" ++ str_of_int (t / 86400000000))%string |}.

(** Squares and square roots, correctly rounded. *)
Definition pow (x y : float) : result float :=
  if (y =? 2)%float then Ok (x * x)%float
  else if (y =? 0.5)%float then Ok (PrimFloat.sqrt x)
  else Raise ValueError.

Definition seconds (n : Z) : datetime := n * 1000000.

Definition event (a : string) (secs : Z) : Activity :=
  {| action := a; timestamp := seconds secs |}.

(** Four weight readings, newest first: 10.0, 10.0, 10.1, 10.1 in
    recording order. *)
Definition scenario_d : list Activity :=
  [event "Pet Weight Recorded: 10.1 lbs" 4;
   event "Pet Weight Recorded: 10.1 lbs" 3;
   event "Pet Weight Recorded: 10.0 lbs" 2;
   event "Pet Weight Recorded: 10.0 lbs" 1].

(** The statistics and the document of a log, when it has them. *)
Definition no_stats : Stats :=
  {| visits := []; weights := []; clean_cycles_completed := 0;
     sensor_interruptions := 0; date_range := (None, None);
     days_covered := NInt 0; visits_by_hour := []; visits_by_date := [];
     longest_gap := None; shortest_gap := None; weight_trend := None;
     weight_change := None; personality_traits := [] |}.

Definition stats_of (activities : list Activity) : Stats :=
  match parse_activity_history zone pow activities with
  | Ok s => s
  | Raise _ => no_stats
  end.

Definition doc_of (stats : Stats) : pyval :=
  match build_data_json zone "now" stats "robot" "cat" with
  | Ok d => d
  | Raise _ => PNone
  end.

(** The document of the empty log. *)
Definition empty_doc : pyval := Eval vm_compute in doc_of no_stats.

Definition scenario_d_stats : Stats := Eval vm_compute in stats_of scenario_d.

(** A detection, a weight, a cycle start and its completion, newest first. *)
Definition scenario_a : list Activity :=
  [event "LitterBoxStatus.CLEAN_CYCLE_COMPLETE" 10;
   event "LitterBoxStatus.CLEAN_CYCLE: started" 2;
   event "Pet Weight Recorded: 8.5 lbs" 1;
   event "LitterBoxStatus.CAT_DETECTED" 0].

Definition scenario_a_stats : Stats := Eval vm_compute in stats_of scenario_a.

Definition scenario_a_doc : pyval := Eval vm_compute in doc_of scenario_a_stats.

(** Two visits that start at one instant. *)
Definition same_instant : list Activity :=
  [event "CCC" 5; event "CD" 5; event "CCC" 5; event "CD" 5].

Definition same_instant_stats : Stats := Eval vm_compute in stats_of same_instant.

Definition same_instant_doc : pyval := Eval vm_compute in doc_of same_instant_stats.

(** A weight label that [float] cannot read. *)
Definition two_dots : Activity := event "Pet Weight Recorded: 1.2.3 lbs" 5.

(** One visit that is completed, and a second completion with no visit. *)
Definition one_visit : list Activity :=
  [event "CCC" 9; event "CCC" 5; event "CD" 1].

Definition one_visit_stats : Stats := Eval vm_compute in stats_of one_visit.

Definition one_visit_doc : pyval := Eval vm_compute in doc_of one_visit_stats.

(** Two visits in chronological order. *)
Definition two_visits : list Activity :=
  [event "CCC" 40; event "CD" 30; event "CCC" 20; event "CD" 10].

Definition two_visits_stats : Stats := Eval vm_compute in stats_of two_visits.

End Sample.

(** ** Words of the specification *)

(** The four parts of the day, in the order the rule lists them. *)
Inductive Period : Set := Night | Morning | Afternoon | Evening.

Definition label (p : Period) : string :=
  match p with
  | Night => "Night Owl"
  | Morning => "Early Bird"
  | Afternoon => "Afternoon Aristocat"
  | Evening => "Evening Eliminator"
  end.

(** The first hour of a part; each part lasts six hours. *)
Definition first_hour (p : Period) : Z :=
  match p with
  | Night => 0
  | Morning => 6
  | Afternoon => 12
  | Evening => 18
  end.

Definition rank (p : Period) : Z :=
  match p with
  | Night => 0
  | Morning => 1
  | Afternoon => 2
  | Evening => 3
  end.

(** The number of visits whose local hour lies in the part [p]. *)
Definition period_count (tz : ZoneInfo) (visits : list CatVisit) (p : Period) : Z :=
  Z.of_nat (List.length
    (filter (fun v => let h := local_hour tz (cv_timestamp v) in
                      (first_hour p <=? h) && (h <? first_hour p + 6))
       visits)).

(** Non-decreasing order. *)
Definition non_decreasing (l : list Z) : Prop := Sorted.Sorted Z.le l.

(** What the loop maintains on a chronological stream whose remaining
    events are at [lo] or later: the visit list is sorted and ends at or
    before the open visit, which starts at or before [lo]. *)
Definition chronological_inv (lo : Z) (s : Loop.state) : Prop :=
  StronglySorted Z.le (map cv_timestamp (Loop.visits s))
  /\ Forall (fun v => cv_timestamp v <= lo) (Loop.visits s)
  /\ match Loop.current_visit s with
     | Some c =>
         Forall (fun v => cv_timestamp v <= cv_timestamp c) (Loop.visits s)
         /\ cv_timestamp c <= lo
     | None => True
     end.

(** ** Counting events *)

Definition has_kind (k : Loop.EventKind) (a : Activity) : bool :=
  match Loop.kind_of a, k with
  | Loop.CatDetected, Loop.CatDetected
  | Loop.WeightRecorded, Loop.WeightRecorded
  | Loop.CycleStarted, Loop.CycleStarted
  | Loop.CycleCompleted, Loop.CycleCompleted
  | Loop.SensorInterrupted, Loop.SensorInterrupted
  | Loop.Unrecognized, Loop.Unrecognized => true
  | _, _ => false
  end.

(** The number of events of [l] that take the branch [k]. *)
Definition count_kind (k : Loop.EventKind) (l : list Activity) : Z :=
  Z.of_nat (List.length (filter (has_kind k) l)).

(** What the weight branch appends to the weight list for the event [a]:
    the number its label carries, when it carries one that [float] reads. *)
Definition recorded_weight (a : Activity) : list float :=
  if has_kind Loop.WeightRecorded a then
    match search_lbs (action a) with
    | Some g =>
        match float_of_str g with
        | Ok w => [w]
        | Raise _ => []
        end
    | None => []
    end
  else [].

(** The number of visits whose local hour is [h]. *)
Definition visits_at_hour (tz : ZoneInfo) (visits : list CatVisit) (h : Z) : Z :=
  Z.of_nat (List.length
    (filter (fun v => local_hour tz (cv_timestamp v) =? h) visits)).

(** The entry of [chart_data] for a date bucket. *)
Definition chart_entry (i : DateInfo) : pyval :=
  PDict [("weekday", PStr (weekday_name i));
         ("display", PStr (display i));
         ("count", PInt (count i))].

(** Every character of [s] satisfies [p]. *)
Fixpoint string_forall (p : ascii -> bool) (s : string) : bool :=
  match s with
  | EmptyString => true
  | String c rest => p c && string_forall p rest
  end.

(** ** The reducer, one event at a time *)

Lemma bind_ok {A B : Type} (m : result A) (k : A -> result B) (b : B) :
  bind m k = Ok b -> exists a, m = Ok a /\ k a = Ok b.
Proof.
  destruct m as [a|e]; simpl; intros H; [exists a; auto | discriminate].
Qed.

(** Opens every [bind] of a successful computation. *)
Ltac open_binds :=
  repeat match goal with
         | H : bind _ _ = Ok _ |- _ =>
             let x := fresh "x" in
             let Hx := fresh "Hx" in
             apply bind_ok in H as (x & Hx & H)
         end.

Lemma run_app (s : Loop.state) (l1 l2 : list Activity) :
  Loop.run s (l1 ++ l2) = (s1 <- Loop.run s l1 ;; Loop.run s1 l2).
Proof.
  revert s; induction l1 as [|a l1 IH]; intros s; simpl; [reflexivity|].
  destruct (Loop.step s a) as [s'|e]; simpl; [apply IH | reflexivity].
Qed.

Lemma run_snoc (s s' : Loop.state) (pre : list Activity) (a : Activity) :
  Loop.run s (pre ++ [a]) = Ok s' ->
  exists s1, Loop.run s pre = Ok s1 /\ Loop.step s1 a = Ok s'.
Proof.
  rewrite run_app. intros H. apply bind_ok in H as (s1 & H1 & H2).
  exists s1; split; [assumption|].
  simpl in H2. destruct (Loop.step s1 a); simpl in H2; congruence.
Qed.

(** The branch taken is the one [kind_of] names. *)
Ltac by_kind H :=
  unfold Loop.kind_of in H; unfold Loop.step;
  repeat match type of H with
         | context [if ?b then _ else _] => destruct b; try discriminate H
         end.

Lemma step_cat_detected (s : Loop.state) (e : Activity) :
  Loop.kind_of e = Loop.CatDetected ->
  Loop.step s e =
    Ok (Loop.with_current_visit s (Some (new_visit (timestamp e)))).
Proof. intros H. by_kind H. reflexivity. Qed.

Lemma step_cycle_completed (s : Loop.state) (e : Activity) :
  Loop.kind_of e = Loop.CycleCompleted ->
  Loop.step s e =
    (visit <- match Loop.cycle_start_time s, Loop.current_visit s with
              | Some start, Some v =>
                  duration <- total_seconds (timestamp e - start) ;;
                  Ok (Some {| cv_timestamp := cv_timestamp v;
                              weight_lbs := weight_lbs v;
                              clean_cycle_duration_seconds := Some duration |})
              | _, _ => Ok (Loop.current_visit s)
              end ;;
     Ok {| Loop.visits := match visit with
                          | Some v => Loop.visits s ++ [v]
                          | None => Loop.visits s
                          end;
           Loop.weights := Loop.weights s;
           Loop.clean_cycles_completed := Loop.clean_cycles_completed s + 1;
           Loop.sensor_interruptions := Loop.sensor_interruptions s;
           Loop.current_visit := None;
           Loop.cycle_start_time := None |}).
Proof. intros H. by_kind H. reflexivity. Qed.

(** Outside the completion branch the visit list and the counter stay. *)
Lemma step_other (s s' : Loop.state) (e : Activity) :
  Loop.kind_of e <> Loop.CycleCompleted ->
  Loop.step s e = Ok s' ->
  Loop.visits s' = Loop.visits s
  /\ Loop.clean_cycles_completed s' = Loop.clean_cycles_completed s.
Proof.
  intros H Hs. unfold Loop.kind_of in H. unfold Loop.step in Hs.
  destruct (Loop.is_cat_detected _); [injection Hs as <-; auto|].
  destruct (Loop.is_weight_recorded _).
  { destruct (search_lbs _); [|injection Hs as <-; auto].
    apply bind_ok in Hs as (w & _ & Hs). injection Hs as <-; auto. }
  destruct (Loop.is_cycle_started _); [injection Hs as <-; auto|].
  destruct (Loop.is_cycle_completed _); [congruence|].
  destruct (Loop.is_sensor_interrupted _); injection Hs as <-; auto.
Qed.

(** C3: after a chronological sequence [pre], a CycleCompleted event [e]
    adds one to the completed-cycle counter and clears [cycle_start_time] and
    the open visit in every case; when a visit is open it is appended to the
    visit list, with its duration set to the seconds from [cycle_start_time]
    to [e] when a cycle start is recorded and left as it was otherwise; with
    no open visit the visit list stays. *)
Theorem cycle_completed_transition
    (s0 s' : Loop.state) (pre : list Activity) (e : Activity) :
  Loop.kind_of e = Loop.CycleCompleted ->
  Loop.run s0 (pre ++ [e]) = Ok s' ->
  exists s,
    Loop.run s0 pre = Ok s
    /\ Loop.clean_cycles_completed s' = Loop.clean_cycles_completed s + 1
    /\ Loop.cycle_start_time s' = None
    /\ Loop.current_visit s' = None
    /\ Loop.weights s' = Loop.weights s
    /\ Loop.sensor_interruptions s' = Loop.sensor_interruptions s
    /\ match Loop.current_visit s with
       | Some v =>
           exists v',
             Loop.visits s' = Loop.visits s ++ [v']
             /\ cv_timestamp v' = cv_timestamp v
             /\ weight_lbs v' = weight_lbs v
             /\ match Loop.cycle_start_time s with
                | Some start =>
                    exists d, total_seconds (timestamp e - start) = Ok d
                      /\ clean_cycle_duration_seconds v' = Some d
                | None =>
                    clean_cycle_duration_seconds v' = clean_cycle_duration_seconds v
                end
       | None => Loop.visits s' = Loop.visits s
       end.
Proof.
  intros Hk Hrun. apply run_snoc in Hrun as (s & Hpre & Hstep).
  exists s. split; [assumption|].
  rewrite (step_cycle_completed s e Hk) in Hstep.
  apply bind_ok in Hstep as (visit & Hv & Hs). injection Hs as <-. simpl.
  repeat (split; [reflexivity|]).
  destruct (Loop.current_visit s) as [v|], (Loop.cycle_start_time s) as [start|].
  - apply bind_ok in Hv as (d & Hd & Hv). injection Hv as <-.
    eexists; repeat split; eauto.
  - injection Hv as <-. exists v; repeat split; reflexivity.
  - injection Hv as <-. reflexivity.
  - injection Hv as <-. reflexivity.
Qed.

Lemma cycle_completed_transition_witness :
  let pre := [Sample.event "CD" 0; Sample.event "CCP" 2] in
  let e := Sample.event "CCC" 10 in
  Loop.kind_of e = Loop.CycleCompleted
  /\ exists s', Loop.run Loop.init (pre ++ [e]) = Ok s'
      /\ exists s, Loop.run Loop.init pre = Ok s
          /\ Loop.clean_cycles_completed s' = Loop.clean_cycles_completed s + 1
          /\ Loop.visits s' =
               [{| cv_timestamp := 0; weight_lbs := None;
                   clean_cycle_duration_seconds := Some 8%float |}].
Proof.
  intros pre e. split; [reflexivity|].
  eexists. split; [reflexivity|].
  destruct (cycle_completed_transition Loop.init _ pre e eq_refl eq_refl)
    as (s & Hs & Hc & _).
  exists s. repeat split; assumption || reflexivity.
Defined.

(** What a successful [parse_activity_history] returns, field by field. *)
Lemma parse_inv (tz : ZoneInfo) (pow : float -> float -> result float)
    (activities : list Activity) (stats : Stats) :
  parse_activity_history tz pow activities = Ok stats ->
  exists s,
    Loop.run Loop.init (rev activities) = Ok s
    /\ visits stats = Loop.visits s
    /\ weights stats = Loop.weights s
    /\ clean_cycles_completed stats = Loop.clean_cycles_completed s
    /\ weight_trend_change (Loop.weights s)
       = Ok (weight_trend stats, weight_change stats)
    /\ visits_by_hour stats = hours_of_visits tz (Loop.visits s)
    /\ (exists rest,
          personality_traits stats
          = time_of_day_traits (visits_by_hour stats) ++ rest)
    /\ match map timestamp activities with
       | [] => date_range stats = (None, None) /\ days_covered stats = NInt 0
       | t :: ts =>
           exists secs days,
             total_seconds (fold_left Z.max ts t - fold_left Z.min ts t) = Ok secs
             /\ float_div_int secs 86400 = Ok days
             /\ date_range stats
                = (Some (fold_left Z.min ts t), Some (fold_left Z.max ts t))
             /\ days_covered stats = NFloat days
       end.
Proof.
  unfold parse_activity_history. intros H.
  apply bind_ok in H as (s & Hrun & H).
  apply bind_ok in H as (range & Hrange & H).
  apply bind_ok in H as ([trend change] & Htrend & H).
  apply bind_ok in H as (regularity & _ & H).
  apply bind_ok in H as (weekly & _ & H).
  injection H as <-. simpl.
  exists s. repeat (split; [reflexivity || assumption|]).
  split; [eexists; reflexivity|].
  destruct (map timestamp activities) as [|t ts].
  - injection Hrange as <-. split; reflexivity.
  - apply bind_ok in Hrange as (secs & Hsecs & Hrange).
    apply bind_ok in Hrange as (days & Hdays & Hrange).
    injection Hrange as <-. exists secs, days. repeat split; assumption.
Qed.

(** An event outside the completion branch leaves visits and counter alone,
    and so does a run of such events. *)
Lemma run_without_completion (post : list Activity) :
  Forall (fun a => Loop.kind_of a <> Loop.CycleCompleted) post ->
  forall s s', Loop.run s post = Ok s' ->
    Loop.visits s' = Loop.visits s
    /\ Loop.clean_cycles_completed s' = Loop.clean_cycles_completed s.
Proof.
  induction 1 as [|a post Ha _ IH]; intros s s' Hrun; simpl in Hrun.
  - injection Hrun as <-. auto.
  - apply bind_ok in Hrun as (s1 & Hstep & Hrun).
    destruct (IH _ _ Hrun) as [-> ->]. exact (step_other _ _ _ Ha Hstep).
Qed.

(** C4: a CatDetected event [e] makes a fresh visit, with the timestamp of
    [e] and no weight and no duration, the open visit, whatever visit was
    open before, and changes nothing else; the earlier open visit has no
    influence on any later state, so it never reaches the visit list: a
    CycleCompleted right after [e] appends the visit that starts at [e].
    When no CycleCompleted follows [e] before the stream ends, no visit is
    added after [e] and the completed-cycle counter keeps its value; so a
    stream that starts with [e] and has no CycleCompleted, and the stream
    made of [e] alone, give an empty visit list and the counter 0. *)
Theorem cat_detected_replaces_open_visit (s : Loop.state) (e : Activity) :
  Loop.kind_of e = Loop.CatDetected ->
  Loop.step s e
  = Ok (Loop.with_current_visit s (Some (new_visit (timestamp e))))
  /\ (exists s',
        Loop.step s e = Ok s'
        /\ Loop.current_visit s'
           = Some {| cv_timestamp := timestamp e; weight_lbs := None;
                     clean_cycle_duration_seconds := None |}
        /\ Loop.visits s' = Loop.visits s
        /\ Loop.weights s' = Loop.weights s
        /\ Loop.clean_cycles_completed s' = Loop.clean_cycles_completed s
        /\ Loop.sensor_interruptions s' = Loop.sensor_interruptions s
        /\ Loop.cycle_start_time s' = Loop.cycle_start_time s)
  /\ (forall completed s',
        Loop.kind_of completed = Loop.CycleCompleted ->
        Loop.run s [e; completed] = Ok s' ->
        exists v,
          Loop.visits s' = Loop.visits s ++ [v]
          /\ cv_timestamp v = timestamp e
          /\ weight_lbs v = None
          /\ Loop.current_visit s' = None)
  /\ (forall v rest,
        Loop.run (Loop.with_current_visit s v) (e :: rest)
        = Loop.run s (e :: rest))
  /\ (forall post s',
        Forall (fun a => Loop.kind_of a <> Loop.CycleCompleted) post ->
        Loop.run s (e :: post) = Ok s' ->
        Loop.visits s' = Loop.visits s
        /\ Loop.clean_cycles_completed s' = Loop.clean_cycles_completed s)
  /\ (forall tz pow post stats,
        Forall (fun a => Loop.kind_of a <> Loop.CycleCompleted) post ->
        parse_activity_history tz pow (rev (e :: post)) = Ok stats ->
        visits stats = [] /\ clean_cycles_completed stats = 0)
  /\ (forall tz pow,
        exists stats,
          parse_activity_history tz pow [e] = Ok stats
          /\ visits stats = []
          /\ clean_cycles_completed stats = 0).
Proof.
  intros Hk. split; [apply step_cat_detected; assumption|].
  assert (Hkeep : forall s0 post s',
            Forall (fun a => Loop.kind_of a <> Loop.CycleCompleted) post ->
            Loop.run s0 (e :: post) = Ok s' ->
            Loop.visits s' = Loop.visits s0
            /\ Loop.clean_cycles_completed s'
               = Loop.clean_cycles_completed s0).
  { intros s0 post s' Hpost Hrun. simpl in Hrun.
    rewrite (step_cat_detected _ e Hk) in Hrun. simpl in Hrun.
    apply (run_without_completion post Hpost) in Hrun. exact Hrun. }
  split; [|split; [|split; [|split; [|split]]]].
  - eexists. split; [apply step_cat_detected; assumption|].
    repeat split; reflexivity.
  - intros completed s' Hc Hrun. cbn [Loop.run] in Hrun.
    rewrite (step_cat_detected _ e Hk) in Hrun. cbn [bind] in Hrun.
    rewrite (step_cycle_completed _ completed Hc) in Hrun.
    cbn [Loop.with_current_visit Loop.current_visit Loop.cycle_start_time]
      in Hrun.
    apply bind_ok in Hrun as (s1 & Hstep & Hrun). injection Hrun as <-.
    apply bind_ok in Hstep as (visit & Hv & Hstep). injection Hstep as <-.
    cbn [Loop.visits Loop.current_visit].
    destruct (Loop.cycle_start_time s) as [start|].
    + apply bind_ok in Hv as (dur & _ & Hv). injection Hv as <-.
      eexists. repeat split; reflexivity.
    + injection Hv as <-. eexists. repeat split; reflexivity.
  - intros v rest. simpl. rewrite !(step_cat_detected _ e Hk). reflexivity.
  - intros post s'. apply Hkeep.
  - intros tz pow post stats Hpost H.
    apply parse_inv in H as (s1 & Hrun & -> & _ & -> & _).
    rewrite rev_involutive in Hrun.
    apply (Hkeep Loop.init post s1 Hpost) in Hrun. exact Hrun.
  - intros tz pow. unfold parse_activity_history. simpl rev. simpl Loop.run.
    rewrite (step_cat_detected _ e Hk). simpl. rewrite Z.sub_diag.
    eexists. split; [reflexivity|]. split; reflexivity.
Qed.

Lemma cat_detected_replaces_open_visit_witness :
  let earlier :=
    {| cv_timestamp := 3000000; weight_lbs := None;
       clean_cycle_duration_seconds := None |} in
  let s := Loop.with_current_visit Loop.init (Some earlier) in
  let e := Sample.event "LitterBoxStatus.CAT_DETECTED" 7 in
  Loop.run Loop.init [Sample.event "CD" 3] = Ok s
  /\ Loop.kind_of e = Loop.CatDetected
  /\ (exists s',
        Loop.step s e = Ok s'
        /\ Loop.current_visit s'
           = Some {| cv_timestamp := 7000000; weight_lbs := None;
                     clean_cycle_duration_seconds := None |})
  /\ (exists s' v,
        Loop.run s [e; Sample.event "CCC" 9] = Ok s'
        /\ Loop.visits s' = [v]
        /\ cv_timestamp v = 7000000)
  /\ exists stats,
       parse_activity_history Sample.zone Sample.pow [e] = Ok stats
       /\ visits stats = []
       /\ clean_cycles_completed stats = 0.
Proof.
  intros earlier s e.
  pose proof (cat_detected_replaces_open_visit s e eq_refl)
    as (_ & (s1 & Hstep & Hcur & _) & Hdone & _ & _ & _ & Hparse).
  split; [reflexivity|]. split; [reflexivity|].
  split; [exists s1; split; [exact Hstep | exact Hcur]|].
  split; [|exact (Hparse Sample.zone Sample.pow)].
  destruct (Hdone (Sample.event "CCC" 9)
              {| Loop.visits :=
                   [{| cv_timestamp := 7000000; weight_lbs := None;
                       clean_cycle_duration_seconds := None |}];
                 Loop.weights := [];
                 Loop.clean_cycles_completed := 1;
                 Loop.sensor_interruptions := 0;
                 Loop.current_visit := None;
                 Loop.cycle_start_time := None |} eq_refl eq_refl)
    as (v & Hv & Ht & _).
  eexists. exists v. split; [reflexivity|]. split; [exact Hv | exact Ht].
Defined.

(** ** Invariants of the reducer *)

Lemma step_counts (s s' : Loop.state) (e : Activity) :
  Loop.step s e = Ok s' ->
  Z.of_nat (List.length (Loop.visits s)) <= Loop.clean_cycles_completed s ->
  Z.of_nat (List.length (Loop.visits s')) <= Loop.clean_cycles_completed s'.
Proof.
  intros Hstep Hle.
  destruct (Loop.kind_of e) eqn:Hk;
    try (destruct (step_other s s' e) as [-> ->];
         [rewrite Hk; discriminate | assumption | assumption]).
  rewrite (step_cycle_completed s e Hk) in Hstep.
  apply bind_ok in Hstep as (visit & _ & Hs). injection Hs as <-. simpl.
  destruct visit; [rewrite length_app; simpl|]; lia.
Qed.

Lemma run_counts (chronological : list Activity) :
  forall s s', Loop.run s chronological = Ok s' ->
    Z.of_nat (List.length (Loop.visits s)) <= Loop.clean_cycles_completed s ->
    Z.of_nat (List.length (Loop.visits s')) <= Loop.clean_cycles_completed s'.
Proof.
  induction chronological as [|a rest IH]; intros s s' Hrun Hle; simpl in Hrun.
  - injection Hrun as <-. assumption.
  - apply bind_ok in Hrun as (s1 & Hstep & Hrun).
    eapply IH; [eassumption|]. eapply step_counts; eassumption.
Qed.

(** C9: the visit list is never longer than the completed-cycle count: an
    event outside the CycleCompleted branch leaves the visit list alone, and
    a CycleCompleted event adds one to the counter and at most one visit. *)
Theorem visits_at_most_completed_cycles
    (tz : ZoneInfo) (pow : float -> float -> result float)
    (activities : list Activity) (stats : Stats) :
  parse_activity_history tz pow activities = Ok stats ->
  Z.of_nat (List.length (visits stats)) <= clean_cycles_completed stats
  /\ (forall s s' e,
        Loop.step s e = Ok s' ->
        Loop.kind_of e <> Loop.CycleCompleted ->
        Loop.visits s' = Loop.visits s)
  /\ (forall s s' e,
        Loop.step s e = Ok s' ->
        Loop.kind_of e = Loop.CycleCompleted ->
        Loop.clean_cycles_completed s' = Loop.clean_cycles_completed s + 1
        /\ (List.length (Loop.visits s') <= S (List.length (Loop.visits s)))%nat).
Proof.
  intros H. apply parse_inv in H as (s & Hrun & -> & _ & -> & _).
  split; [|split].
  - apply (run_counts _ _ _ Hrun). simpl. lia.
  - intros s1 s2 e Hstep Hk. apply (step_other s1 s2 e Hk Hstep).
  - intros s1 s2 e Hstep Hk. rewrite (step_cycle_completed s1 e Hk) in Hstep.
    apply bind_ok in Hstep as (visit & _ & Hs). injection Hs as <-. simpl.
    split; [reflexivity|].
    destruct visit; [rewrite length_app; simpl|]; lia.
Qed.

Lemma visits_at_most_completed_cycles_witness :
  parse_activity_history Sample.zone Sample.pow Sample.one_visit
  = Ok Sample.one_visit_stats
  /\ Z.of_nat (List.length (visits Sample.one_visit_stats))
     <= clean_cycles_completed Sample.one_visit_stats
  /\ List.length (visits Sample.one_visit_stats) = 1%nat
  /\ clean_cycles_completed Sample.one_visit_stats = 2.
Proof.
  assert (H : parse_activity_history Sample.zone Sample.pow Sample.one_visit
              = Ok Sample.one_visit_stats) by (vm_compute; reflexivity).
  split; [exact H|].
  split; [|split; reflexivity].
  exact (proj1 (visits_at_most_completed_cycles _ _ _ _ H)).
Defined.

Lemma StronglySorted_snoc (l : list Z) (a : Z) :
  StronglySorted Z.le l -> Forall (fun x => x <= a) l ->
  StronglySorted Z.le (l ++ [a]).
Proof.
  induction 1 as [|x l Hl IH Hx]; intros Ha; simpl.
  - constructor; constructor.
  - inversion Ha as [|? ? Hxa Hla]; subst. constructor; [auto|].
    apply Forall_app; split; [assumption | constructor; [assumption | constructor]].
Qed.

Lemma Forall_le_trans (l : list CatVisit) (a b : Z) :
  a <= b ->
  Forall (fun v => cv_timestamp v <= a) l ->
  Forall (fun v => cv_timestamp v <= b) l.
Proof. intros Hab. apply Forall_impl. intros v Hv. lia. Qed.

Lemma inv_later (lo t : Z) (s : Loop.state) :
  lo <= t -> chronological_inv lo s -> chronological_inv t s.
Proof.
  intros Hle (Hs & Hlo & Hc). split; [assumption|].
  split; [eapply Forall_le_trans; eassumption|].
  destruct (Loop.current_visit s); [|exact I].
  destruct Hc as [Hv Hc]. split; [assumption | lia].
Qed.

Lemma step_chronological (lo : Z) (s s' : Loop.state) (e : Activity) :
  lo <= timestamp e ->
  chronological_inv lo s ->
  Loop.step s e = Ok s' ->
  chronological_inv (timestamp e) s'.
Proof.
  intros Hle Hinv Hstep.
  pose proof (inv_later lo (timestamp e) s Hle Hinv) as (Hs & Ht & Hc).
  unfold Loop.step in Hstep.
  destruct (Loop.is_cat_detected _).
  { injection Hstep as <-. repeat split; simpl; auto; lia. }
  destruct (Loop.is_weight_recorded _).
  { destruct (search_lbs _); [|injection Hstep as <-; repeat split; assumption].
    apply bind_ok in Hstep as (w & _ & Hstep). injection Hstep as <-.
    repeat split; simpl; auto.
    destruct (Loop.current_visit s); [exact Hc | exact I]. }
  destruct (Loop.is_cycle_started _).
  { injection Hstep as <-. repeat split; assumption. }
  destruct (Loop.is_cycle_completed _).
  { apply bind_ok in Hstep as (visit & Hv & Hstep). injection Hstep as <-.
    assert (Hvisit : match visit with
                     | Some v => Forall (fun x => cv_timestamp x <= cv_timestamp v)
                                   (Loop.visits s)
                                 /\ cv_timestamp v <= timestamp e
                     | None => True
                     end).
    { destruct (Loop.cycle_start_time s), (Loop.current_visit s);
        try (injection Hv as <-; assumption).
      apply bind_ok in Hv as (dur & _ & Hv). injection Hv as <-. exact Hc. }
    destruct visit as [v|]; repeat split; simpl; auto.
    - destruct Hvisit as [Hall _]. rewrite map_app. simpl.
      apply StronglySorted_snoc; [assumption|].
      apply Forall_map. exact Hall.
    - destruct Hvisit as [_ Hv']. apply Forall_app. split; [assumption|].
      constructor; [assumption | constructor]. }
  destruct (Loop.is_sensor_interrupted _);
    injection Hstep as <-; repeat split; assumption.
Qed.

Lemma run_chronological (chronological : list Activity) :
  forall lo s s',
    StronglySorted Z.le (map timestamp chronological) ->
    Forall (fun a => lo <= timestamp a) chronological ->
    chronological_inv lo s ->
    Loop.run s chronological = Ok s' ->
    StronglySorted Z.le (map cv_timestamp (Loop.visits s')).
Proof.
  induction chronological as [|a rest IH]; intros lo s s' Hsorted Hlo Hinv Hrun;
    simpl in Hrun.
  - injection Hrun as <-. apply Hinv.
  - apply bind_ok in Hrun as (s1 & Hstep & Hrun).
    simpl in Hsorted. inversion Hsorted as [|? ? Hrest Hhead]; subst.
    inversion Hlo as [|? ? Ha _]; subst.
    apply (IH (timestamp a) s1 s'); try assumption.
    + rewrite Forall_map in Hhead. exact Hhead.
    + eapply step_chronological; eassumption.
Qed.

(** C5: when the events, read oldest first, have non-decreasing timestamps,
    the visits come out in non-decreasing order of their start timestamps. *)
Theorem visits_non_decreasing
    (tz : ZoneInfo) (pow : float -> float -> result float)
    (activities : list Activity) (stats : Stats) :
  non_decreasing (map timestamp (rev activities)) ->
  parse_activity_history tz pow activities = Ok stats ->
  non_decreasing (map cv_timestamp (visits stats)).
Proof.
  unfold non_decreasing. intros Hsorted H.
  apply parse_inv in H as (s & Hrun & -> & _).
  apply StronglySorted_Sorted.
  apply Sorted_StronglySorted in Hsorted; [|intros x y z; apply Z.le_trans].
  destruct (rev activities) as [|a rest] eqn:Hrev.
  - simpl in Hrun. injection Hrun as <-. constructor.
  - apply (run_chronological (a :: rest) (timestamp a) Loop.init s);
      try assumption.
    + simpl in Hsorted. inversion Hsorted as [|? ? _ Hhead]; subst.
      constructor; [lia|]. rewrite Forall_map in Hhead. exact Hhead.
    + repeat split; simpl; constructor.
Qed.

Lemma visits_non_decreasing_witness :
  non_decreasing (map timestamp (rev Sample.two_visits))
  /\ parse_activity_history Sample.zone Sample.pow Sample.two_visits
     = Ok Sample.two_visits_stats
  /\ map cv_timestamp (visits Sample.two_visits_stats) = [10000000; 30000000]
  /\ non_decreasing (map cv_timestamp (visits Sample.two_visits_stats)).
Proof.
  assert (Hs : non_decreasing (map timestamp (rev Sample.two_visits))).
  { repeat constructor; discriminate. }
  assert (H : parse_activity_history Sample.zone Sample.pow Sample.two_visits
              = Ok Sample.two_visits_stats) by (vm_compute; reflexivity).
  split; [exact Hs|]. split; [exact H|]. split; [reflexivity|].
  exact (visits_non_decreasing _ _ _ _ Hs H).
Defined.

(** ** The time-of-day rule *)

Lemma hour_count_incr (k h : Z) (d : list (Z * Z)) :
  hour_count (incr_hour k d) h = hour_count d h + (if k =? h then 1 else 0).
Proof.
  induction d as [|[k' n] d IH]; simpl.
  - destruct (k =? h); reflexivity.
  - destruct (Z.eqb_spec k' k) as [->|Hk]; simpl.
    + destruct (k =? h); lia.
    + destruct (Z.eqb_spec k' h) as [->|Hh].
      * destruct (Z.eqb_spec k h); lia.
      * exact IH.
Qed.

(** The bucket of hour [h] counts the visits whose local hour is [h]. *)
Lemma hour_count_visits (tz : ZoneInfo) (visits : list CatVisit) (h : Z) :
  hour_count (hours_of_visits tz visits) h
  = Z.of_nat (List.length
      (filter (fun v => local_hour tz (cv_timestamp v) =? h) visits)).
Proof.
  unfold hours_of_visits.
  assert (G : forall d,
    hour_count
      (fold_left (fun d visit => incr_hour (local_hour tz (cv_timestamp visit)) d)
         visits d) h
    = hour_count d h
      + Z.of_nat (List.length
          (filter (fun v => local_hour tz (cv_timestamp v) =? h) visits))).
  { induction visits as [|v visits IH]; intros d; simpl; [lia|].
    rewrite IH, hour_count_incr.
    destruct (local_hour tz (cv_timestamp v) =? h); simpl List.length; lia. }
  rewrite G. reflexivity.
Qed.

(** The six buckets of a part add up to the visits of that part. *)
Lemma sum_hours_period (tz : ZoneInfo) (visits : list CatVisit) (p : Period) :
  sum_hours (hours_of_visits tz visits) (Z.to_nat (first_hour p)) 6
  = period_count tz visits p.
Proof.
  unfold sum_hours, sum_ints, period_count.
  destruct p; simpl; rewrite !hour_count_visits;
    (induction visits as [|v visits IH]; [reflexivity|]);
    cbn [filter];
    repeat match goal with
           | |- context [?a =? ?b] => destruct (Z.eqb_spec a b)
           end;
    repeat match goal with
           | |- context [?a <=? ?b] => destruct (Z.leb_spec a b)
           | |- context [?a <? ?b] => destruct (Z.ltb_spec a b)
           end;
    cbn [andb List.length]; rewrite ?Nat2Z.inj_succ; lia.
Qed.

(** Checks a candidate for the dominant part of the day. *)
Ltac winner :=
  split; [intros q; destruct q; lia|];
  split; [intros q; destruct q; simpl; lia|];
  repeat match goal with
         | |- context [0 <? ?b] => destruct (Z.ltb_spec 0 b)
         end;
  reflexivity || lia.

(** C7: the buckets of each part of the day add up to the visits of that
    part; the rule picks the part with the greatest count, the first listed
    (Night, Morning, Afternoon, Evening) among equals, and appends its label
    exactly when that count is positive; the label opens the trait list. *)
Theorem time_of_day_dominance (tz : ZoneInfo) (visits_ : list CatVisit) :
  let by_hour := hours_of_visits tz visits_ in
  let n := period_count tz visits_ in
  (forall p, sum_hours by_hour (Z.to_nat (first_hour p)) 6 = n p)
  /\ (exists w,
        (forall q, n q <= n w)
        /\ (forall q, rank q < rank w -> n q < n w)
        /\ time_of_day_traits by_hour = if 0 <? n w then [label w] else [])
  /\ (forall pow activities stats,
        parse_activity_history tz pow activities = Ok stats ->
        exists rest,
          personality_traits stats
          = time_of_day_traits (hours_of_visits tz (visits stats)) ++ rest).
Proof.
  cbv zeta.
  pose proof (sum_hours_period tz visits_) as Hsum.
  remember (hours_of_visits tz visits_) as by_hour eqn:Hby.
  set (n := period_count tz visits_) in *.
  split; [exact Hsum|]. split.
  - assert (Hempty : by_hour = [] -> forall p, n p = 0).
    { intros He p. rewrite <- Hsum, He. destruct p; reflexivity. }
    assert (H0 : sum_hours by_hour 0 6 = n Night) by exact (Hsum Night).
    assert (H1 : sum_hours by_hour 6 6 = n Morning) by exact (Hsum Morning).
    assert (H2 : sum_hours by_hour 12 6 = n Afternoon) by exact (Hsum Afternoon).
    assert (H3 : sum_hours by_hour 18 6 = n Evening) by exact (Hsum Evening).
    clear Hby Hsum.
    unfold time_of_day_traits. destruct by_hour as [|kv d].
    + exists Night. rewrite (Hempty eq_refl Night).
      repeat split; [intros q; rewrite (Hempty eq_refl q); lia
                    | intros q; destruct q; simpl; lia].
    + clear Hempty. rewrite H0, H1, H2, H3. unfold max_by. simpl.
      repeat match goal with
             | |- context [n ?p <? n ?q] =>
                 destruct (Z.ltb_spec (n p) (n q)); simpl
             end;
        first [ exists Night; solve [winner]
              | exists Morning; solve [winner]
              | exists Afternoon; solve [winner]
              | exists Evening; solve [winner] ].
  - intros pow activities stats H.
    apply parse_inv in H as (s & _ & -> & _ & _ & _ & Hh & Hrest & _).
    subst by_hour. rewrite <- Hh. exact Hrest.
Qed.

(** ** The weight trend *)

(** A float below -0.1 is not above 0.1. *)
Lemma below_not_above (x : float) :
  (x <? -0.1)%float = true -> (0.1 <? x)%float = false.
Proof.
  rewrite !ltb_spec.
  set (a := Prim2SF 0.1). set (b := Prim2SF (-0.1)).
  vm_compute in a, b. subst a b.
  destruct (Prim2SF x) as [s|s| |s m e]; try destruct s;
    cbn [SFltb SFcompare]; congruence.
Qed.

(** The trend of a change, by the two thresholds. *)
Lemma trend_of_change (c : float) (t : string) :
  t = (if (0.1 <? c)%float then "gaining"
       else if (c <? -0.1)%float then "losing" else "stable") ->
  (t = "gaining" <-> (0.1 <? c)%float = true)
  /\ (t = "losing" <-> (c <? -0.1)%float = true)
  /\ (t = "stable" <-> (0.1 <? c)%float = false /\ (c <? -0.1)%float = false).
Proof.
  intros ->. pose proof (below_not_above c) as Hb.
  destruct (0.1 <? c)%float, (c <? -0.1)%float;
    repeat split; intros; try reflexivity; try discriminate;
    try (specialize (Hb eq_refl); discriminate);
    try match goal with H : _ /\ _ |- _ => destruct H; discriminate end.
Qed.

(** C6, as amended: with at least 4 weight samples, [change] is the mean of
    the second half minus the mean of the first half, the list being split
    at [n // 2]; the trend is "gaining" exactly when [change > 0.1], "losing"
    exactly when [change < -0.1] and "stable" otherwise, so a change equal to
    0.1 is "stable".  The samples 10.0, 10.0, 10.1, 10.1 give the change
    0.09999999999999964, which is below 0.1 and is 0.1 once rounded to two
    decimals, and the trend "stable". *)
Theorem weight_trend_thresholds
    (tz : ZoneInfo) (pow : float -> float -> result float)
    (activities : list Activity) (stats : Stats) :
  parse_activity_history tz pow activities = Ok stats ->
  (4 <= List.length (weights stats))%nat ->
  let n := List.length (weights stats) in
  let mid := (n / 2)%nat in
  (exists first_half_avg second_half_avg change trend,
     float_div_int (PyFloat.sum (firstn mid (weights stats))) (Z.of_nat mid)
     = Ok first_half_avg
     /\ float_div_int (PyFloat.sum (skipn mid (weights stats))) (Z.of_nat (n - mid))
        = Ok second_half_avg
     /\ change = (second_half_avg - first_half_avg)%float
     /\ weight_change stats = Some change
     /\ weight_trend stats = Some trend
     /\ (trend = "gaining" <-> (0.1 <? change)%float = true)
     /\ (trend = "losing" <-> (change <? -0.1)%float = true)
     /\ (trend = "stable" <->
         (0.1 <? change)%float = false /\ (change <? -0.1)%float = false)
     /\ (change = 0.1%float -> trend = "stable"))
  /\ weight_trend_change [10.0; 10.0; 10.1; 10.1]%float
     = Ok (Some "stable", Some 0.09999999999999964%float)
  /\ (0.09999999999999964 <? 0.1)%float = true
  /\ PyFloat.round 0.09999999999999964 2 = 0.1%float.
Proof.
  intros H Hlen n mid.
  split; [|repeat split; reflexivity].
  apply parse_inv in H as (s & _ & _ & Hw & _ & Htrend & _).
  subst n mid. rewrite Hw in *. clear Hw.
  unfold weight_trend_change in Htrend.
  destruct (Nat.leb_spec 4 (List.length (Loop.weights s))); [|lia].
  apply bind_ok in Htrend as (a1 & Ha1 & Htrend).
  apply bind_ok in Htrend as (a2 & Ha2 & Htrend).
  injection Htrend as Ht Hc.
  exists a1, a2, (a2 - a1)%float. eexists.
  split; [exact Ha1|]. split; [exact Ha2|]. split; [reflexivity|].
  split; [symmetry; exact Hc|]. split; [symmetry; exact Ht|].
  destruct (trend_of_change (a2 - a1)%float _ eq_refl) as (Hg & Hl & Hs).
  split; [exact Hg|]. split; [exact Hl|]. split; [exact Hs|].
  intros ->. reflexivity.
Qed.

Lemma weight_trend_thresholds_witness :
  parse_activity_history Sample.zone Sample.pow Sample.scenario_d
  = Ok Sample.scenario_d_stats
  /\ (4 <= List.length (weights Sample.scenario_d_stats))%nat
  /\ weight_trend Sample.scenario_d_stats = Some "stable"
  /\ exists change trend,
       weight_change Sample.scenario_d_stats = Some change
       /\ weight_trend Sample.scenario_d_stats = Some trend
       /\ (trend = "stable" <->
           (0.1 <? change)%float = false /\ (change <? -0.1)%float = false).
Proof.
  assert (H : parse_activity_history Sample.zone Sample.pow Sample.scenario_d
              = Ok Sample.scenario_d_stats) by (vm_compute; reflexivity).
  assert (Hlen : (4 <= List.length (weights Sample.scenario_d_stats))%nat)
    by (vm_compute; lia).
  split; [exact H|]. split; [exact Hlen|]. split; [reflexivity|].
  destruct (weight_trend_thresholds _ _ _ _ H Hlen)
    as [(a1 & a2 & c & t & _ & _ & _ & Hc & Ht & _ & _ & Hs & _) _].
  exists c, t. split; [exact Hc|]. split; [exact Ht | exact Hs].
Defined.

(** C6 as stated fails on its example: the change of the samples
    10.0, 10.0, 10.1, 10.1 is 0.09999999999999964, which is not 0.1. *)
Lemma scenario_d_change_is_not_a_tenth :
  parse_activity_history Sample.zone Sample.pow Sample.scenario_d
  = Ok Sample.scenario_d_stats
  /\ weights Sample.scenario_d_stats = [10.0; 10.0; 10.1; 10.1]%float
  /\ weight_trend Sample.scenario_d_stats = Some "stable"
  /\ weight_change Sample.scenario_d_stats = Some 0.09999999999999964%float
  /\ (0.09999999999999964 =? 0.1)%float = false.
Proof. repeat split; vm_compute; reflexivity. Qed.

(** ** The document *)

(** The fields of a document that was built, in terms of the statistics. *)
Lemma build_fields (tz : ZoneInfo) (generated_at : string) (stats : Stats)
    (robot_name cat_name : string) (doc : pyval) :
  build_data_json tz generated_at stats robot_name cat_name = Ok doc ->
  let total_visits := Z.of_nat (List.length (visits stats)) in
  let days :=
    if pynum_truthy (days_covered stats) then days_covered stats else NInt 1 in
  exists visits_per_day total lbs longest shortest,
    int_div_num total_visits days = Ok visits_per_day
    /\ PyFloat.of_int total_visits = Ok total
    /\ float_div_int (total * 2.5)%float 16 = Ok lbs
    /\ gap_display (longest_gap stats) = Ok longest
    /\ gap_display (shortest_gap stats) = Ok shortest
    /\ field "total_visits" doc = Some (PInt total_visits)
    /\ field "visits_per_day" doc = Some (PFloat (PyFloat.round visits_per_day 1))
    /\ field2 "timing" "longest_gap" doc = Some (PStr longest)
    /\ field2 "timing" "shortest_gap" doc = Some (PStr shortest)
    /\ field2 "weight" "trend" doc = Some (of_opt_str (weight_trend stats))
    /\ field2 "weight" "change" doc
       = Some (of_num (round_num
                         (or_else (option_map NFloat (weight_change stats))
                            (NInt 0)) 2))
    /\ field2 "output" "oz" doc = Some (PFloat (PyFloat.round (total * 2.5)%float 0))
    /\ field2 "output" "lbs" doc = Some (PFloat (PyFloat.round lbs 1)).
Proof.
  unfold build_data_json. intros H. cbv zeta.
  destruct (date_range stats) as [start end_].
  apply bind_ok in H as (visits_per_day & Hvpd & H).
  apply bind_ok in H as (avg_weight & _ & H).
  apply bind_ok in H as (busiest_date & _ & H).
  apply bind_ok in H as (longest & Hlongest & H).
  apply bind_ok in H as (shortest & Hshortest & H).
  apply bind_ok in H as (total & Htotal & H).
  apply bind_ok in H as (lbs & Hlbs & H).
  apply bind_ok in H as (range_display & _ & H).
  injection H as <-.
  exists visits_per_day, total, lbs, longest, shortest.
  repeat (split; [assumption || reflexivity|]). reflexivity.
Qed.

(** C8, as amended: in a document that was built, [oz] is
    [total_visits * 2.5] rounded to 0 decimals and [lbs] is
    [total_visits * 2.5 / 16], the product not rounded, rounded to 1
    decimal, where [total_visits] is the length of the visit list. *)
Theorem output_block
    (tz : ZoneInfo) (generated_at : string) (stats : Stats)
    (robot_name cat_name : string) (doc : pyval) :
  build_data_json tz generated_at stats robot_name cat_name = Ok doc ->
  let total_visits := Z.of_nat (List.length (visits stats)) in
  exists total estimated_output_oz estimated_output_lbs,
    field "total_visits" doc = Some (PInt total_visits)
    /\ PyFloat.of_int total_visits = Ok total
    /\ estimated_output_oz = (total * 2.5)%float
    /\ float_div_int estimated_output_oz 16 = Ok estimated_output_lbs
    /\ field2 "output" "oz" doc
       = Some (PFloat (PyFloat.round estimated_output_oz 0))
    /\ field2 "output" "lbs" doc
       = Some (PFloat (PyFloat.round estimated_output_lbs 1)).
Proof.
  intros H. apply build_fields in H.
  destruct H as (vpd & total & lbs & longest & shortest & _ & Htotal & Hlbs
                 & _ & _ & Htv & _ & _ & _ & _ & _ & Hoz & Hl).
  exists total, (total * 2.5)%float, lbs. repeat split; assumption.
Qed.

Lemma output_block_witness :
  build_data_json Sample.zone "now" Sample.one_visit_stats "robot" "cat"
  = Ok Sample.one_visit_doc
  /\ field "total_visits" Sample.one_visit_doc = Some (PInt 1)
  /\ field2 "output" "oz" Sample.one_visit_doc = Some (PFloat 2)
  /\ field2 "output" "lbs" Sample.one_visit_doc = Some (PFloat 0.2).
Proof.
  assert (H : build_data_json Sample.zone "now" Sample.one_visit_stats
                "robot" "cat" = Ok Sample.one_visit_doc)
    by (vm_compute; reflexivity).
  split; [exact H|].
  destruct (output_block _ _ _ _ _ _ H) as (total & oz & lbs & Htv & _).
  split; [exact Htv|]. split; vm_compute; reflexivity.
Defined.

(** C8 as stated fails for one visit: the document has 2.0 oz and 0.2 lbs,
    and 2.0 / 16 rounded to 1 decimal is 0.1: [lbs] does not come from the
    rounded [oz]. *)
Lemma output_lbs_is_not_from_rounded_oz :
  parse_activity_history Sample.zone Sample.pow Sample.one_visit
  = Ok Sample.one_visit_stats
  /\ build_data_json Sample.zone "now" Sample.one_visit_stats "robot" "cat"
     = Ok Sample.one_visit_doc
  /\ List.length (visits Sample.one_visit_stats) = 1%nat
  /\ field2 "output" "oz" Sample.one_visit_doc = Some (PFloat 2)
  /\ field2 "output" "lbs" Sample.one_visit_doc = Some (PFloat 0.2)
  /\ float_div_int 2 16 = Ok 0.125%float
  /\ PyFloat.round 0.125 1 = 0.1%float
  /\ (0.2 =? 0.1)%float = false.
Proof. repeat split; vm_compute; reflexivity. Qed.

(** ** Division by zero *)

Lemma dbz_bind {A B : Type} (m : result A) (k : A -> result B) :
  divides_by_zero m = false ->
  (forall a, m = Ok a -> divides_by_zero (k a) = false) ->
  divides_by_zero (bind m k) = false.
Proof.
  intros Hm Hk. destruct m as [a|e]; simpl; [apply Hk; reflexivity | exact Hm].
Qed.

Lemma dbz_of_int (n : Z) : divides_by_zero (PyFloat.of_int n) = false.
Proof. unfold PyFloat.of_int. cbv zeta. destruct (is_infinity _); reflexivity. Qed.

Lemma dbz_int_truediv (a b : Z) :
  b <> 0 -> divides_by_zero (PyFloat.int_truediv a b) = false.
Proof.
  intros Hb. unfold PyFloat.int_truediv. destruct b; [congruence| |];
    cbv zeta; destruct (is_infinity _); reflexivity.
Qed.

Lemma dbz_float_div_int (x : float) (n : Z) :
  n <> 0 -> divides_by_zero (float_div_int x n) = false.
Proof.
  intros Hn. unfold float_div_int. apply dbz_bind; [apply dbz_of_int|].
  intros d _. destruct (Z.eqb_spec n 0); [congruence | reflexivity].
Qed.

Lemma dbz_gap_display (gap : option timedelta) :
  divides_by_zero (gap_display gap) = false.
Proof.
  destruct gap as [td|]; [|reflexivity]. simpl.
  destruct (td =? 0); [reflexivity|].
  unfold format_duration. apply dbz_bind.
  - apply dbz_int_truediv. discriminate.
  - intros secs _. apply dbz_bind; [|reflexivity].
    unfold PyFloat.to_int. destruct (Prim2SF secs); reflexivity.
Qed.

Lemma dbz_list_index {A : Type} (l : list A) (i : Z) :
  divides_by_zero (list_index l i) = false.
Proof.
  unfold list_index. cbv zeta.
  destruct (_ && _); [|reflexivity]. destruct (nth_error _ _); reflexivity.
Qed.

Lemma dbz_int_div_num (n : Z) (d : pynum) :
  pynum_truthy d = true -> divides_by_zero (int_div_num n d) = false.
Proof.
  destruct d as [z|f]; simpl; intros Hd.
  - apply dbz_int_truediv. destruct (Z.eqb_spec z 0); [discriminate | assumption].
  - apply dbz_bind; [apply dbz_of_int|]. intros x _.
    unfold PyFloat.truediv. unfold PyFloat.truthy in Hd.
    destruct (f =? 0)%float; [discriminate | reflexivity].
Qed.

Lemma fold_max_same (t : Z) (ts : list Z) :
  Forall (fun x => x = t) ts -> fold_left Z.max ts t = t.
Proof.
  induction 1 as [|x ts -> _ IH]; simpl; [reflexivity|].
  rewrite Z.max_id. exact IH.
Qed.

Lemma fold_min_same (t : Z) (ts : list Z) :
  Forall (fun x => x = t) ts -> fold_left Z.min ts t = t.
Proof.
  induction 1 as [|x ts -> _ IH]; simpl; [reflexivity|].
  rewrite Z.min_id. exact IH.
Qed.

(** C10: [build_data_json] never ends in a [ZeroDivisionError]; when
    [days_covered] is zero the divisor of the visits per day is 1, so the
    document reports the number of visits, as a float, rounded to 1 decimal;
    [days_covered] is zero for the empty log (the int 0) and for a log whose
    events all carry one timestamp (the float 0.0). *)
Theorem visits_per_day_without_zero_division
    (tz : ZoneInfo) (generated_at : string) (stats : Stats)
    (robot_name cat_name : string) :
  divides_by_zero (build_data_json tz generated_at stats robot_name cat_name)
  = false
  /\ (pynum_truthy (days_covered stats) = false ->
      forall doc,
        build_data_json tz generated_at stats robot_name cat_name = Ok doc ->
        exists total_visits,
          PyFloat.of_int (Z.of_nat (List.length (visits stats))) = Ok total_visits
          /\ PyFloat.int_truediv (Z.of_nat (List.length (visits stats))) 1
             = Ok total_visits
          /\ field "visits_per_day" doc
             = Some (PFloat (PyFloat.round total_visits 1)))
  /\ (forall pow activities parsed,
        parse_activity_history tz pow activities = Ok parsed ->
        (forall a b, In a activities -> In b activities ->
                     timestamp a = timestamp b) ->
        days_covered parsed
        = match activities with
          | [] => NInt 0
          | _ :: _ => NFloat 0
          end
        /\ pynum_truthy (days_covered parsed) = false).
Proof.
  split; [|split].
  - unfold build_data_json. destruct (date_range stats) as [start end_].
    apply dbz_bind.
    { destruct (pynum_truthy (days_covered stats)) eqn:Hd;
        apply dbz_int_div_num; [exact Hd | reflexivity]. }
    intros vpd _. apply dbz_bind.
    { destruct (weights stats) as [|w ws]; [reflexivity|].
      apply dbz_bind; [|reflexivity].
      apply dbz_float_div_int. simpl List.length. lia. }
    intros avg _. apply dbz_bind.
    { destruct (visits_by_date stats) as [|kv rest]; [reflexivity|].
      apply dbz_bind; [apply dbz_list_index | reflexivity]. }
    intros busiest _. apply dbz_bind; [apply dbz_gap_display|].
    intros longest _. apply dbz_bind; [apply dbz_gap_display|].
    intros shortest _. apply dbz_bind; [apply dbz_of_int|].
    intros total _. apply dbz_bind; [apply dbz_float_div_int; discriminate|].
    intros lbs _. apply dbz_bind; [|reflexivity].
    destruct start; [destruct end_|]; reflexivity.
  - intros Hd doc H. apply build_fields in H. cbv zeta in H. rewrite Hd in H.
    destruct H as (vpd & total & _ & _ & _ & Hvpd & Htotal & _ & _ & _ & _
                   & Hfield & _).
    exists vpd. split; [exact Hvpd|]. split; [exact Hvpd | exact Hfield].
  - intros pow activities parsed H Hsame.
    apply parse_inv in H as (_ & _ & _ & _ & _ & _ & _ & _ & Hrange).
    destruct activities as [|a rest]; simpl in Hrange.
    + destruct Hrange as [_ ->]. split; reflexivity.
    + destruct Hrange as (secs & days & Hsecs & Hdays & _ & ->).
      assert (Hall : Forall (fun x => x = timestamp a) (map timestamp rest)).
      { apply Forall_map, Forall_forall. intros b Hb.
        apply Hsame; [right; exact Hb | left; reflexivity]. }
      rewrite (fold_max_same _ _ Hall), (fold_min_same _ _ Hall), Z.sub_diag
        in Hsecs.
      injection Hsecs as <-. injection Hdays as <-. split; reflexivity.
Qed.

(** ** Defaults of the document *)

(** C1, on the code: with fewer than 4 weight samples the document reports
    the change 0 and the trend [None]: the statistics always carry the key
    [weight_trend], so the default "stable" of the lookup is never used. *)
Theorem weight_block_with_few_samples
    (tz : ZoneInfo) (pow : float -> float -> result float)
    (generated_at robot_name cat_name : string)
    (activities : list Activity) (stats : Stats) (doc : pyval) :
  parse_activity_history tz pow activities = Ok stats ->
  (List.length (weights stats) < 4)%nat ->
  build_data_json tz generated_at stats robot_name cat_name = Ok doc ->
  weight_trend stats = None
  /\ weight_change stats = None
  /\ field2 "weight" "trend" doc = Some PNone
  /\ field2 "weight" "change" doc = Some (PInt 0).
Proof.
  intros Hparse Hlen Hbuild.
  apply parse_inv in Hparse as (s & _ & _ & Hw & _ & Htrend & _).
  rewrite Hw in Hlen. unfold weight_trend_change in Htrend.
  destruct (Nat.leb_spec 4 (List.length (Loop.weights s))); [lia|].
  injection Htrend as Ht Hc.
  apply build_fields in Hbuild.
  destruct Hbuild as (vpd & total & lbs & longest & shortest
                      & _ & _ & _ & _ & _ & _ & _ & _ & _ & Htr & Hch & _).
  rewrite <- Ht in Htr. rewrite <- Hc in Hch.
  repeat split; auto.
Qed.

Lemma weight_block_with_few_samples_witness :
  parse_activity_history Sample.zone Sample.pow [] = Ok Sample.no_stats
  /\ (List.length (weights Sample.no_stats) < 4)%nat
  /\ build_data_json Sample.zone "now" Sample.no_stats "robot" "cat"
     = Ok Sample.empty_doc
  /\ field2 "weight" "trend" Sample.empty_doc = Some PNone
  /\ field2 "weight" "change" Sample.empty_doc = Some (PInt 0).
Proof.
  assert (H1 : parse_activity_history Sample.zone Sample.pow []
               = Ok Sample.no_stats) by reflexivity.
  assert (H2 : (List.length (weights Sample.no_stats) < 4)%nat)
    by (simpl; lia).
  assert (H3 : build_data_json Sample.zone "now" Sample.no_stats "robot" "cat"
               = Ok Sample.empty_doc) by (vm_compute; reflexivity).
  split; [exact H1|]. split; [exact H2|]. split; [exact H3|].
  exact (proj2 (proj2 (weight_block_with_few_samples _ _ _ _ _ _ _ _ H1 H2 H3))).
Defined.

(** C2, as amended: for the empty log the statistics have [days_covered]
    0 and the document has [total_visits] 0, [date_range] with [start] and
    [end] null and [display] the empty string, [busiest_date] null, both gap
    fields "N/A" and [peak_hour] with hour 0, count 0 and display "12:00 AM". *)
Theorem empty_log_document
    (tz : ZoneInfo) (pow : float -> float -> result float)
    (generated_at robot_name cat_name : string) :
  exists stats doc,
    parse_activity_history tz pow [] = Ok stats
    /\ build_data_json tz generated_at stats robot_name cat_name = Ok doc
    /\ days_covered stats = NInt 0
    /\ field "total_visits" doc = Some (PInt 0)
    /\ field "date_range" doc
       = Some (PDict [("start", PNone); ("end", PNone);
                      ("display", PStr EmptyString)])
    /\ field "busiest_date" doc = Some PNone
    /\ field2 "timing" "longest_gap" doc = Some (PStr "N/A")
    /\ field2 "timing" "shortest_gap" doc = Some (PStr "N/A")
    /\ field "peak_hour" doc
       = Some (PDict [("hour", PInt 0); ("count", PInt 0);
                      ("display", PStr "12:00 AM")]).
Proof.
  exists Sample.no_stats. eexists.
  split; [reflexivity|]. split; [reflexivity|].
  repeat split; reflexivity.
Qed.

(** C2 as stated fails on [date_range]: its [display] is the empty string,
    which is not null. *)
Lemma empty_log_range_display_is_a_string :
  parse_activity_history Sample.zone Sample.pow [] = Ok Sample.no_stats
  /\ build_data_json Sample.zone "now" Sample.no_stats "robot" "cat"
     = Ok Sample.empty_doc
  /\ field2 "date_range" "display" Sample.empty_doc = Some (PStr EmptyString).
Proof. repeat split; vm_compute; reflexivity. Qed.

(** ** Further properties of the reducer *)

Lemma prefix_iff (n h : string) :
  prefix n h = true <-> exists post, h = (n ++ post)%string.
Proof.
  revert h. induction n as [|c n IH]; intros h.
  - split; [intros _; exists h; reflexivity | intros _; destruct h; reflexivity].
  - destruct h as [|c' h]; simpl.
    + split; [discriminate | intros [post H]; discriminate].
    + destruct (ascii_dec c c') as [->|Hc].
      * rewrite IH. split; intros [post H]; exists post; congruence.
      * split; [discriminate | intros [post H]; congruence].
Qed.

(** [needle in hay] holds exactly when [hay] is [needle] with a string
    before it and a string after it. *)
Lemma contains_iff_substring (needle hay : string) :
  contains needle hay = true
  <-> exists pre post, hay = (pre ++ needle ++ post)%string.
Proof.
  induction hay as [|c hay IH]; cbn [contains].
  - rewrite prefix_iff. split.
    + intros [post H]. exists EmptyString, post. exact H.
    + intros (pre & post & H). destruct pre; simpl in H; [|discriminate].
      exists post. exact H.
  - rewrite orb_true_iff, IH, prefix_iff. split.
    + intros [[post H]|(pre & post & H)].
      * exists EmptyString, post. exact H.
      * exists (String c pre), post. simpl. congruence.
    + intros (pre & post & H). destruct pre as [|c' pre]; simpl in H.
      * left. exists post. exact H.
      * right. exists pre, post. congruence.
Qed.

(** X1: an event takes the CatDetected branch exactly when its label holds
    CAT_DETECTED somewhere or is the code CD; the branch is tested first, so
    such a label is never read as a weight, whatever else it holds, and
    records no weight sample. *)
Theorem cat_detected_labels (a : Activity) :
  (Loop.kind_of a = Loop.CatDetected
   <-> (exists pre post, action a = (pre ++ "CAT_DETECTED" ++ post)%string)
       \/ action a = "CD")
  /\ (forall pre post t,
        Loop.kind_of {| action := (pre ++ "CAT_DETECTED" ++ post)%string;
                        timestamp := t |} = Loop.CatDetected
        /\ recorded_weight {| action := (pre ++ "CAT_DETECTED" ++ post)%string;
                              timestamp := t |} = []).
Proof.
  assert (Hiff : forall b,
    Loop.kind_of b = Loop.CatDetected
    <-> (exists pre post, action b = (pre ++ "CAT_DETECTED" ++ post)%string)
        \/ action b = "CD").
  { intros b. rewrite <- contains_iff_substring, <- String.eqb_eq, <- orb_true_iff.
    unfold Loop.kind_of. fold (Loop.is_cat_detected (action b)).
    destruct (Loop.is_cat_detected (action b)).
    - split; reflexivity.
    - split; [|discriminate].
      repeat match goal with
             | |- context [if ?b then _ else _] => destruct b
             end; discriminate. }
  split; [apply Hiff|].
  intros pre post t.
  assert (Hk : Loop.kind_of {| action := (pre ++ "CAT_DETECTED" ++ post)%string;
                               timestamp := t |} = Loop.CatDetected).
  { apply Hiff. left. exists pre, post. reflexivity. }
  split; [exact Hk|].
  unfold recorded_weight, has_kind. rewrite Hk. reflexivity.
Qed.

Lemma step_unrecognized (s : Loop.state) (e : Activity) :
  Loop.kind_of e = Loop.Unrecognized -> Loop.step s e = Ok s.
Proof. intros H. by_kind H. reflexivity. Qed.

(** X2: events whose label no branch recognises can be dropped from the
    stream: the reducer ends in the same state, or fails alike. *)
Theorem unrecognized_events_are_inert (s : Loop.state) (chronological : list Activity) :
  Loop.run s (filter (fun a => negb (has_kind Loop.Unrecognized a)) chronological)
  = Loop.run s chronological.
Proof.
  revert s. induction chronological as [|a rest IH]; intros s; [reflexivity|].
  cbn [filter]. unfold has_kind at 1.
  destruct (Loop.kind_of a) eqn:Hk; cbn [negb Loop.run];
    try (destruct (Loop.step s a); simpl; [apply IH | reflexivity]).
  rewrite (step_unrecognized s a Hk). simpl. apply IH.
Qed.

Lemma count_kind_cons (k : Loop.EventKind) (a : Activity) (l : list Activity) :
  count_kind k (a :: l) = (if has_kind k a then 1 else 0) + count_kind k l.
Proof.
  unfold count_kind. cbn [filter]. destruct (has_kind k a);
    cbn [List.length]; lia.
Qed.

Lemma count_kind_rev (k : Loop.EventKind) (l : list Activity) :
  count_kind k (rev l) = count_kind k l.
Proof.
  unfold count_kind. induction l as [|a l IH]; [reflexivity|].
  cbn [rev filter]. rewrite filter_app, length_app, Nat2Z.inj_add, IH.
  cbn [filter]. destruct (has_kind k a); cbn [List.length]; lia.
Qed.

(** What one iteration does to the two counters and to the weight list. *)
Lemma step_tallies (s s' : Loop.state) (e : Activity) :
  Loop.step s e = Ok s' ->
  Loop.clean_cycles_completed s'
  = Loop.clean_cycles_completed s
    + (if has_kind Loop.CycleCompleted e then 1 else 0)
  /\ Loop.sensor_interruptions s'
     = Loop.sensor_interruptions s
       + (if has_kind Loop.SensorInterrupted e then 1 else 0)
  /\ Loop.weights s' = Loop.weights s ++ recorded_weight e.
Proof.
  unfold recorded_weight, has_kind, Loop.kind_of, Loop.step. intros H.
  destruct (Loop.is_cat_detected _).
  { injection H as <-. simpl. rewrite app_nil_r. repeat split; lia. }
  destruct (Loop.is_weight_recorded _).
  { destruct (search_lbs _).
    - apply bind_ok in H as (w & -> & H). injection H as <-. simpl.
      repeat split; lia.
    - injection H as <-. rewrite app_nil_r. repeat split; lia. }
  destruct (Loop.is_cycle_started _).
  { injection H as <-. simpl. rewrite app_nil_r. repeat split; lia. }
  destruct (Loop.is_cycle_completed _).
  { apply bind_ok in H as (visit & _ & H). injection H as <-. simpl.
    rewrite app_nil_r. repeat split; lia. }
  destruct (Loop.is_sensor_interrupted _);
    injection H as <-; simpl; rewrite app_nil_r; repeat split; lia.
Qed.

Lemma run_tallies (chronological : list Activity) :
  forall s s', Loop.run s chronological = Ok s' ->
    Loop.clean_cycles_completed s'
    = Loop.clean_cycles_completed s
      + count_kind Loop.CycleCompleted chronological
    /\ Loop.sensor_interruptions s'
       = Loop.sensor_interruptions s
         + count_kind Loop.SensorInterrupted chronological
    /\ Loop.weights s'
       = Loop.weights s ++ flat_map recorded_weight chronological.
Proof.
  induction chronological as [|a rest IH]; intros s s' H; simpl in H.
  - injection H as <-. unfold count_kind. simpl. rewrite app_nil_r.
    repeat split; lia.
  - apply bind_ok in H as (s1 & Hstep & H).
    destruct (step_tallies _ _ _ Hstep) as (Hc & Hi & Hw).
    destruct (IH _ _ H) as (Hc' & Hi' & Hw').
    rewrite !count_kind_cons. cbn [flat_map].
    rewrite Hc', Hi', Hw', Hc, Hi, Hw, app_assoc. repeat split; lia.
Qed.

(** What a successful [parse_activity_history] returns, in full. *)
Lemma parse_fields (tz : ZoneInfo) (pow : float -> float -> result float)
    (activities : list Activity) (stats : Stats) :
  parse_activity_history tz pow activities = Ok stats ->
  exists s regularity weekly,
    Loop.run Loop.init (rev activities) = Ok s
    /\ visits stats = Loop.visits s
    /\ weights stats = Loop.weights s
    /\ clean_cycles_completed stats = Loop.clean_cycles_completed s
    /\ sensor_interruptions stats = Loop.sensor_interruptions s
    /\ visits_by_hour stats = hours_of_visits tz (Loop.visits s)
    /\ visits_by_date stats = dates_of_visits tz (Loop.visits s)
    /\ longest_gap stats = max_opt (visit_gaps_of (Loop.visits s))
    /\ shortest_gap stats = min_opt (visit_gaps_of (Loop.visits s))
    /\ regularity_traits pow (visit_gaps_of (Loop.visits s)) = Ok regularity
    /\ weekly_traits (visits_by_date stats) = Ok weekly
    /\ personality_traits stats
       = time_of_day_traits (visits_by_hour stats) ++ regularity ++ weekly.
Proof.
  unfold parse_activity_history. intros H.
  apply bind_ok in H as (s & Hrun & H).
  apply bind_ok in H as (range & Hrange & H).
  apply bind_ok in H as ([trend change] & Htrend & H).
  apply bind_ok in H as (regularity & Hreg & H).
  apply bind_ok in H as (weekly & Hweek & H).
  injection H as <-. simpl.
  exists s, regularity, weekly. repeat split; assumption.
Qed.

(** X3: the two counters of the statistics are the numbers of events that
    take the CycleCompleted and the SensorInterrupted branch, whatever the
    other events are. *)
Theorem counters_count_events
    (tz : ZoneInfo) (pow : float -> float -> result float)
    (activities : list Activity) (stats : Stats) :
  parse_activity_history tz pow activities = Ok stats ->
  clean_cycles_completed stats = count_kind Loop.CycleCompleted activities
  /\ sensor_interruptions stats = count_kind Loop.SensorInterrupted activities.
Proof.
  intros H. apply parse_fields in H as (s & _ & _ & Hrun & _ & _ & -> & -> & _).
  destruct (run_tallies _ _ _ Hrun) as (Hc & Hi & _).
  rewrite Hc, Hi, !count_kind_rev. split; reflexivity.
Qed.

Lemma counters_count_events_witness :
  parse_activity_history Sample.zone Sample.pow Sample.one_visit
  = Ok Sample.one_visit_stats
  /\ clean_cycles_completed Sample.one_visit_stats
     = count_kind Loop.CycleCompleted Sample.one_visit
  /\ clean_cycles_completed Sample.one_visit_stats = 2.
Proof.
  assert (H : parse_activity_history Sample.zone Sample.pow Sample.one_visit
              = Ok Sample.one_visit_stats) by (vm_compute; reflexivity).
  split; [exact H|].
  split; [exact (proj1 (counters_count_events _ _ _ _ H)) | reflexivity].
Defined.

(** X4: the weight samples are the numbers carried by the weight events,
    oldest first, whether or not a visit was open when they arrived. *)
Theorem weights_are_the_recorded_weights
    (tz : ZoneInfo) (pow : float -> float -> result float)
    (activities : list Activity) (stats : Stats) :
  parse_activity_history tz pow activities = Ok stats ->
  weights stats = flat_map recorded_weight (rev activities).
Proof.
  intros H. apply parse_fields in H as (s & _ & _ & Hrun & _ & -> & _).
  destruct (run_tallies _ _ _ Hrun) as (_ & _ & Hw). exact Hw.
Qed.

Lemma weights_are_the_recorded_weights_witness :
  parse_activity_history Sample.zone Sample.pow Sample.scenario_d
  = Ok Sample.scenario_d_stats
  /\ weights Sample.scenario_d_stats
     = flat_map recorded_weight (rev Sample.scenario_d)
  /\ weights Sample.scenario_d_stats = [10.0; 10.0; 10.1; 10.1]%float
  /\ visits Sample.scenario_d_stats = [].
Proof.
  assert (H : parse_activity_history Sample.zone Sample.pow Sample.scenario_d
              = Ok Sample.scenario_d_stats) by (vm_compute; reflexivity).
  split; [exact H|].
  split; [exact (weights_are_the_recorded_weights _ _ _ _ H)|].
  split; reflexivity.
Defined.

(** A property of the state and of the events seen so far that every
    iteration keeps holds after the loop. *)
Lemma run_invariant (I : list Activity -> Loop.state -> Prop) :
  (forall seen s e s',
     I seen s -> Loop.step s e = Ok s' -> I (seen ++ [e]) s') ->
  forall chronological seen s s',
    I seen s -> Loop.run s chronological = Ok s' ->
    I (seen ++ chronological) s'.
Proof.
  intros Hstep. induction chronological as [|a rest IH];
    intros seen s s' HI H; simpl in H.
  - injection H as <-. rewrite app_nil_r. exact HI.
  - apply bind_ok in H as (s1 & Hs & H).
    change (a :: rest) with ([a] ++ rest). rewrite app_assoc.
    eapply IH; [|exact H]. eapply Hstep; eassumption.
Qed.

Lemma in_detections_app (t : Z) (seen : list Activity) (e : Activity) :
  In t (map timestamp (filter (has_kind Loop.CatDetected) seen)) ->
  In t (map timestamp (filter (has_kind Loop.CatDetected) (seen ++ [e]))).
Proof.
  rewrite filter_app, map_app, in_app_iff. auto.
Qed.

Lemma count_kind_snoc (k : Loop.EventKind) (seen : list Activity) (e : Activity) :
  count_kind k (seen ++ [e]) = count_kind k seen + (if has_kind k e then 1 else 0).
Proof.
  unfold count_kind. rewrite filter_app, length_app, Nat2Z.inj_add.
  cbn [filter]. destruct (has_kind k e); cbn [List.length]; lia.
Qed.

(** The visits, closed or open, start at detections seen so far, carry a
    weight that is among the samples, and are no more than the detections. *)
Lemma step_visits_origin (seen : list Activity) (s s' : Loop.state) (e : Activity) :
  let I seen s :=
    (forall v, In v (Loop.visits s) \/ Loop.current_visit s = Some v ->
       In (cv_timestamp v)
         (map timestamp (filter (has_kind Loop.CatDetected) seen))
       /\ (forall w, weight_lbs v = Some w -> In w (Loop.weights s)))
    /\ Z.of_nat (List.length (Loop.visits s))
       + match Loop.current_visit s with Some _ => 1 | None => 0 end
       <= count_kind Loop.CatDetected seen in
  I seen s -> Loop.step s e = Ok s' -> I (seen ++ [e]) s'.
Proof.
  intros I [Hv Hn] Hstep. unfold I.
  rewrite count_kind_snoc. unfold has_kind, Loop.kind_of.
  unfold Loop.step in Hstep.
  destruct (Loop.is_cat_detected (action e)) eqn:Hcd.
  { injection Hstep as <-. simpl. split.
    - intros v [Hin|Hcur].
      + destruct (Hv v (or_introl Hin)) as [Ht Hw].
        split; [apply in_detections_app; exact Ht | exact Hw].
      + injection Hcur as <-. simpl. split; [|discriminate].
        rewrite filter_app, map_app, in_app_iff. right.
        cbn [filter]. unfold has_kind, Loop.kind_of. rewrite Hcd.
        left. reflexivity.
    - destruct (Loop.current_visit s); lia. }
  assert (Hkeep : forall v,
            In v (Loop.visits s) \/ Loop.current_visit s = Some v ->
            In (cv_timestamp v)
              (map timestamp (filter (has_kind Loop.CatDetected) (seen ++ [e])))
            /\ (forall w, weight_lbs v = Some w -> In w (Loop.weights s))).
  { intros v H. destruct (Hv v H) as [Ht Hw].
    split; [apply in_detections_app; exact Ht | exact Hw]. }
  destruct (Loop.is_weight_recorded _).
  { destruct (search_lbs _).
    - apply bind_ok in Hstep as (w & _ & Hstep). injection Hstep as <-. simpl.
      split.
      + intros v [Hin|Hcur].
        * destruct (Hkeep v (or_introl Hin)) as [Ht Hw]. split; [exact Ht|].
          intros w0 H0. apply in_app_iff. left. apply Hw. exact H0.
        * destruct (Loop.current_visit s) as [c|] eqn:Hc; [|discriminate].
          injection Hcur as <-. simpl.
          destruct (Hkeep c (or_intror eq_refl)) as [Ht _]. split; [exact Ht|].
          intros w0 H0. injection H0 as <-. apply in_app_iff. right. left.
          reflexivity.
      + destruct (Loop.current_visit s); lia.
    - injection Hstep as <-. split; [exact Hkeep | lia]. }
  destruct (Loop.is_cycle_started _).
  { injection Hstep as <-. simpl. split; [exact Hkeep | lia]. }
  destruct (Loop.is_cycle_completed _).
  { apply bind_ok in Hstep as (visit & Hvisit & Hstep). injection Hstep as <-.
    simpl.
    assert (Hsame : match visit, Loop.current_visit s with
                    | Some v, Some c =>
                        cv_timestamp v = cv_timestamp c
                        /\ weight_lbs v = weight_lbs c
                    | None, None => True
                    | _, _ => False
                    end).
    { destruct (Loop.cycle_start_time s), (Loop.current_visit s);
        try (injection Hvisit as <-; auto; fail).
      apply bind_ok in Hvisit as (dur & _ & Hvisit). injection Hvisit as <-.
      simpl. auto. }
    destruct visit as [v|], (Loop.current_visit s) as [c|] eqn:Hc;
      try contradiction.
    - destruct Hsame as [Ht Hw]. split.
      + intros v0 [Hin|Hcur]; [|discriminate].
        apply in_app_iff in Hin as [Hin|[<-|[]]].
        * apply Hkeep. left. exact Hin.
        * rewrite Ht, Hw. apply Hkeep. right. reflexivity.
      + rewrite length_app. simpl. lia.
    - split; [|lia]. intros v0 [Hin|Hcur]; [|discriminate].
      apply Hkeep. left. exact Hin. }
  destruct (Loop.is_sensor_interrupted _);
    injection Hstep as <-; simpl; (split; [exact Hkeep | lia]).
Qed.

Lemma run_visits_origin (chronological : list Activity) (s' : Loop.state) :
  Loop.run Loop.init chronological = Ok s' ->
  (forall v, In v (Loop.visits s') ->
     In (cv_timestamp v)
       (map timestamp (filter (has_kind Loop.CatDetected) chronological))
     /\ (forall w, weight_lbs v = Some w -> In w (Loop.weights s')))
  /\ Z.of_nat (List.length (Loop.visits s'))
     <= count_kind Loop.CatDetected chronological.
Proof.
  intros H.
  pose proof (run_invariant _ (fun seen s e s0 => step_visits_origin seen s s0 e)
                chronological [] Loop.init s') as Hinv.
  simpl in Hinv. destruct Hinv as [Hv Hn].
  - split; [intros v [[]|Hc]; discriminate | unfold count_kind; simpl; lia].
  - exact H.
  - split; [intros v Hin; apply Hv; left; exact Hin|].
    destruct (Loop.current_visit s'); lia.
Qed.

(** X5: every visit of the statistics starts at the timestamp of an event
    of the log that takes the CatDetected branch, and there are no more
    visits than such events. *)
Theorem visits_start_at_detections
    (tz : ZoneInfo) (pow : float -> float -> result float)
    (activities : list Activity) (stats : Stats) :
  parse_activity_history tz pow activities = Ok stats ->
  (forall v, In v (visits stats) ->
     exists a, In a activities
       /\ Loop.kind_of a = Loop.CatDetected
       /\ timestamp a = cv_timestamp v)
  /\ Z.of_nat (List.length (visits stats))
     <= count_kind Loop.CatDetected activities.
Proof.
  intros H. apply parse_fields in H as (s & _ & _ & Hrun & -> & _).
  destruct (run_visits_origin _ _ Hrun) as [Hv Hn].
  rewrite count_kind_rev in Hn. split; [|exact Hn].
  intros v Hin. destruct (Hv v Hin) as [Ht _].
  apply in_map_iff in Ht as (a & Ha & Hf).
  apply filter_In in Hf as [Hina Hk]. exists a.
  split; [apply in_rev; exact Hina|]. split; [|exact Ha].
  unfold has_kind in Hk. destruct (Loop.kind_of a); congruence.
Qed.

Lemma visits_start_at_detections_witness :
  parse_activity_history Sample.zone Sample.pow Sample.two_visits
  = Ok Sample.two_visits_stats
  /\ Z.of_nat (List.length (visits Sample.two_visits_stats))
     <= count_kind Loop.CatDetected Sample.two_visits
  /\ List.length (visits Sample.two_visits_stats) = 2%nat.
Proof.
  assert (H : parse_activity_history Sample.zone Sample.pow Sample.two_visits
              = Ok Sample.two_visits_stats) by (vm_compute; reflexivity).
  split; [exact H|].
  split; [exact (proj2 (visits_start_at_detections _ _ _ _ H)) | reflexivity].
Defined.

(** X6: a weight attached to a visit is one of the weight samples. *)
Theorem visit_weights_are_samples
    (tz : ZoneInfo) (pow : float -> float -> result float)
    (activities : list Activity) (stats : Stats) :
  parse_activity_history tz pow activities = Ok stats ->
  forall v w, In v (visits stats) -> weight_lbs v = Some w ->
    In w (weights stats).
Proof.
  intros H. apply parse_fields in H as (s & _ & _ & Hrun & -> & -> & _).
  destruct (run_visits_origin _ _ Hrun) as [Hv _].
  intros v w Hin Hw. exact (proj2 (Hv v Hin) w Hw).
Qed.

Lemma visit_weights_are_samples_witness :
  parse_activity_history Sample.zone Sample.pow Sample.scenario_a
  = Ok Sample.scenario_a_stats
  /\ visits Sample.scenario_a_stats
     = [{| cv_timestamp := 0; weight_lbs := Some 8.5%float;
           clean_cycle_duration_seconds := Some 8%float |}]
  /\ In 8.5%float (weights Sample.scenario_a_stats).
Proof.
  assert (H : parse_activity_history Sample.zone Sample.pow Sample.scenario_a
              = Ok Sample.scenario_a_stats) by (vm_compute; reflexivity).
  split; [exact H|]. split; [reflexivity|].
  apply (visit_weights_are_samples _ _ _ _ H
           {| cv_timestamp := 0; weight_lbs := Some 8.5%float;
              clean_cycle_duration_seconds := Some 8%float |});
    [left; reflexivity | reflexivity].
Defined.

Lemma run_raise (s s1 : Loop.state) (before after : list Activity)
    (a : Activity) (e : exn) :
  Loop.run s before = Ok s1 -> Loop.step s1 a = Raise e ->
  Loop.run s (before ++ a :: after) = Raise e.
Proof.
  intros H1 H2. rewrite run_app, H1. simpl. rewrite H2. reflexivity.
Qed.

(** X7: a weight label whose number [float] cannot read (two dots, or dots
    alone) makes [parse_activity_history] fail with that exception, a
    [ValueError], as soon as the older events have been processed. *)
Theorem unreadable_weight_raises
    (tz : ZoneInfo) (pow : float -> float -> result float)
    (newer older : list Activity) (a : Activity) (g : string) (e : exn)
    (s : Loop.state) :
  Loop.kind_of a = Loop.WeightRecorded ->
  search_lbs (action a) = Some g ->
  float_of_str g = Raise e ->
  Loop.run Loop.init (rev older) = Ok s ->
  e = ValueError
  /\ parse_activity_history tz pow (newer ++ a :: older) = Raise e.
Proof.
  intros Hk Hg He Hrun. split.
  - unfold float_of_str in He. destruct (span is_digit g) as [ip r].
    destruct (_ && _); congruence.
  - unfold parse_activity_history.
    rewrite rev_app_distr. cbn [rev]. rewrite <- app_assoc. cbn [app].
    rewrite (run_raise Loop.init s (rev older) (rev newer) a e Hrun);
      [reflexivity|].
    unfold Loop.kind_of in Hk. unfold Loop.step.
    destruct (Loop.is_cat_detected _); [discriminate|].
    destruct (Loop.is_weight_recorded _).
    + rewrite Hg, He. reflexivity.
    + repeat match type of Hk with
             | context [if ?b then _ else _] => destruct b; try discriminate Hk
             end.
Qed.

Lemma unreadable_weight_raises_witness :
  Loop.kind_of Sample.two_dots = Loop.WeightRecorded
  /\ search_lbs (action Sample.two_dots) = Some "1.2.3"
  /\ float_of_str "1.2.3" = Raise ValueError
  /\ parse_activity_history Sample.zone Sample.pow
       (Sample.one_visit ++ Sample.two_dots :: Sample.two_visits)
     = Raise ValueError.
Proof.
  assert (H1 : Loop.kind_of Sample.two_dots = Loop.WeightRecorded)
    by reflexivity.
  assert (H2 : search_lbs (action Sample.two_dots) = Some "1.2.3")
    by reflexivity.
  assert (H3 : float_of_str "1.2.3" = Raise ValueError) by reflexivity.
  split; [exact H1|]. split; [exact H2|]. split; [exact H3|].
  refine (proj2 (unreadable_weight_raises Sample.zone Sample.pow
                   Sample.one_visit Sample.two_visits Sample.two_dots
                   "1.2.3" ValueError _ H1 H2 H3 _)).
  vm_compute. reflexivity.
Defined.

(** ** Further properties of the statistics *)

Lemma fold_min_spec (ts : list Z) :
  forall t, In (fold_left Z.min ts t) (t :: ts)
            /\ Forall (fun x => fold_left Z.min ts t <= x) (t :: ts).
Proof.
  induction ts as [|x ts IH]; intros t; cbn [fold_left].
  - split; [left; reflexivity | constructor; [lia | constructor]].
  - destruct (IH (Z.min t x)) as [Hin Hall].
    inversion Hall as [|? ? Hm Hts]; subst. split.
    + destruct Hin as [Hin|Hin]; [|right; right; exact Hin].
      rewrite <- Hin. destruct (Z.min_spec t x) as [[_ ->]|[_ ->]];
        [left | right; left]; reflexivity.
    + constructor; [lia|]. constructor; [lia | exact Hts].
Qed.

Lemma fold_max_spec (ts : list Z) :
  forall t, In (fold_left Z.max ts t) (t :: ts)
            /\ Forall (fun x => x <= fold_left Z.max ts t) (t :: ts).
Proof.
  induction ts as [|x ts IH]; intros t; cbn [fold_left].
  - split; [left; reflexivity | constructor; [lia | constructor]].
  - destruct (IH (Z.max t x)) as [Hin Hall].
    inversion Hall as [|? ? Hm Hts]; subst. split.
    + destruct Hin as [Hin|Hin]; [|right; right; exact Hin].
      rewrite <- Hin. destruct (Z.max_spec t x) as [[_ ->]|[_ ->]];
        [right; left | left]; reflexivity.
    + constructor; [lia|]. constructor; [lia | exact Hts].
Qed.

(** X8: the date range of a non-empty log runs from the earliest to the
    latest timestamp of all its events, whatever their labels and order:
    both ends are timestamps of events and every event lies between them. *)
Theorem date_range_covers_every_event
    (tz : ZoneInfo) (pow : float -> float -> result float)
    (activities : list Activity) (stats : Stats) :
  parse_activity_history tz pow activities = Ok stats ->
  activities <> [] ->
  exists first last,
    date_range stats = (Some first, Some last)
    /\ In first (map timestamp activities)
    /\ In last (map timestamp activities)
    /\ forall a, In a activities -> first <= timestamp a <= last.
Proof.
  intros H Hne. apply parse_inv in H as (_ & _ & _ & _ & _ & _ & _ & _ & Hrange).
  destruct (map timestamp activities) as [|t ts] eqn:Hts.
  - destruct activities; [congruence | discriminate].
  - destruct Hrange as (secs & days & _ & _ & Hr & _).
    destruct (fold_min_spec ts t) as [Hmin Hlo].
    destruct (fold_max_spec ts t) as [Hmax Hhi].
    exists (fold_left Z.min ts t), (fold_left Z.max ts t).
    split; [exact Hr|]. split; [exact Hmin|]. split; [exact Hmax|].
    intros a Ha. rewrite Forall_forall in Hlo, Hhi.
    assert (Hin : In (timestamp a) (t :: ts)).
    { rewrite <- Hts. apply in_map. exact Ha. }
    split; [apply Hlo | apply Hhi]; exact Hin.
Qed.

Lemma date_range_covers_every_event_witness :
  parse_activity_history Sample.zone Sample.pow Sample.two_visits
  = Ok Sample.two_visits_stats
  /\ date_range Sample.two_visits_stats = (Some 10000000, Some 40000000)
  /\ exists first last,
       date_range Sample.two_visits_stats = (Some first, Some last)
       /\ In first (map timestamp Sample.two_visits)
       /\ In last (map timestamp Sample.two_visits).
Proof.
  assert (H : parse_activity_history Sample.zone Sample.pow Sample.two_visits
              = Ok Sample.two_visits_stats) by (vm_compute; reflexivity).
  split; [exact H|]. split; [reflexivity|].
  destruct (date_range_covers_every_event _ _ _ _ H) as (lo & hi & Hr & Hl & Hh & _).
  { discriminate. }
  exists lo, hi. repeat split; assumption.
Defined.

Lemma min_opt_spec (l : list Z) :
  match min_opt l with
  | Some m => In m l /\ Forall (fun x => m <= x) l
  | None => l = []
  end.
Proof. destruct l as [|x l]; simpl; [reflexivity | apply fold_min_spec]. Qed.

Lemma max_opt_spec (l : list Z) :
  match max_opt l with
  | Some m => In m l /\ Forall (fun x => x <= m) l
  | None => l = []
  end.
Proof. destruct l as [|x l]; simpl; [reflexivity | apply fold_max_spec]. Qed.

Lemma visit_gaps_length (vs : list CatVisit) :
  List.length (visit_gaps_of vs) = (List.length vs - 1)%nat.
Proof.
  induction vs as [|v0 [|v1 vs] IH]; try reflexivity.
  change (visit_gaps_of (v0 :: v1 :: vs))
    with ((cv_timestamp v1 - cv_timestamp v0) :: visit_gaps_of (v1 :: vs)).
  cbn [List.length] in *. lia.
Qed.

Lemma visit_gaps_sorted (vs : list CatVisit) :
  Sorted Z.le (map cv_timestamp vs) ->
  Forall (fun g => 0 <= g) (visit_gaps_of vs).
Proof.
  induction vs as [|v0 [|v1 vs] IH]; intros Hs; try constructor.
  - cbn [map] in Hs. inversion Hs as [|? ? _ Hhd]; subst.
    inversion Hhd; subst. lia.
  - apply IH. cbn [map] in Hs |- *. inversion Hs; assumption.
Qed.

Lemma parse_visits_sorted
    (tz : ZoneInfo) (pow : float -> float -> result float)
    (activities : list Activity) (stats : Stats) :
  Sorted Z.le (map timestamp (rev activities)) ->
  parse_activity_history tz pow activities = Ok stats ->
  Sorted Z.le (map cv_timestamp (visits stats)).
Proof.
  intros Hsorted H. apply parse_inv in H as (s & Hrun & -> & _).
  apply StronglySorted_Sorted.
  apply Sorted_StronglySorted in Hsorted; [|intros x y z; apply Z.le_trans].
  apply (run_chronological (rev activities)
           (match rev activities with
            | [] => 0
            | a :: _ => timestamp a
            end) Loop.init s); try assumption.
  - destruct (rev activities) as [|a rest]; [constructor|].
    simpl in Hsorted. inversion Hsorted as [|? ? _ Hhead]; subst.
    constructor; [lia|]. rewrite Forall_map in Hhead. exact Hhead.
  - repeat split; simpl; constructor.
Qed.

(** X9: with fewer than two visits there is no longest and no shortest
    gap; with two or more both exist, both are gaps between consecutive
    visits, the shortest is at most the longest, and on a log in
    chronological order neither is negative. *)
Theorem gap_extremes
    (tz : ZoneInfo) (pow : float -> float -> result float)
    (activities : list Activity) (stats : Stats) :
  parse_activity_history tz pow activities = Ok stats ->
  let gaps := visit_gaps_of (visits stats) in
  ((List.length (visits stats) < 2)%nat ->
     longest_gap stats = None /\ shortest_gap stats = None)
  /\ ((2 <= List.length (visits stats))%nat ->
      exists longest shortest,
        longest_gap stats = Some longest
        /\ shortest_gap stats = Some shortest
        /\ In longest gaps /\ In shortest gaps
        /\ shortest <= longest
        /\ (forall g, In g gaps -> shortest <= g <= longest)
        /\ (non_decreasing (map timestamp (rev activities)) -> 0 <= shortest)).
Proof.
  intros H gaps.
  pose proof (fun Hs => parse_visits_sorted tz pow activities stats Hs H) as Hsorted.
  apply parse_fields in H
    as (s & _ & _ & _ & Hv & _ & _ & _ & _ & _ & Hl & Hsh & _).
  subst gaps. rewrite Hv in *. rewrite Hl, Hsh.
  pose proof (visit_gaps_length (Loop.visits s)) as Hlen.
  pose proof (max_opt_spec (visit_gaps_of (Loop.visits s))) as Hmax.
  pose proof (min_opt_spec (visit_gaps_of (Loop.visits s))) as Hmin.
  split.
  - intros Hfew.
    destruct (visit_gaps_of (Loop.visits s)); [split; reflexivity|].
    simpl in Hlen. lia.
  - intros Hmany.
    destruct (max_opt _) as [l|]; [|rewrite Hmax in Hlen; simpl in Hlen; lia].
    destruct (min_opt _) as [m|]; [|rewrite Hmin in Hlen; simpl in Hlen; lia].
    destruct Hmax as [Hlin Hlall], Hmin as [Hmin Hmall].
    rewrite Forall_forall in Hlall, Hmall.
    exists l, m. repeat split; auto.
    intros Hchron. apply Hsorted, visit_gaps_sorted in Hchron.
    rewrite Forall_forall in Hchron. apply Hchron. exact Hmin.
Qed.

Lemma gap_extremes_witness :
  parse_activity_history Sample.zone Sample.pow Sample.two_visits
  = Ok Sample.two_visits_stats
  /\ longest_gap Sample.two_visits_stats = Some 20000000
  /\ exists longest shortest,
       longest_gap Sample.two_visits_stats = Some longest
       /\ shortest_gap Sample.two_visits_stats = Some shortest
       /\ shortest <= longest.
Proof.
  assert (H : parse_activity_history Sample.zone Sample.pow Sample.two_visits
              = Ok Sample.two_visits_stats) by (vm_compute; reflexivity).
  split; [exact H|]. split; [reflexivity|].
  destruct (proj2 (gap_extremes _ _ _ _ H))
    as (l & m & Hl & Hm & _ & _ & Hle & _).
  { vm_compute. lia. }
  exists l, m. repeat split; assumption.
Defined.

Lemma sum_ints_from (l : list Z) (a : Z) : fold_left Z.add l a = a + sum_ints l.
Proof.
  unfold sum_ints. revert a. induction l as [|x l IH]; intros a; simpl; [lia|].
  rewrite (IH (a + x)), (IH x). lia.
Qed.

Lemma sum_ints_cons (x : Z) (l : list Z) : sum_ints (x :: l) = x + sum_ints l.
Proof. unfold sum_ints at 1. simpl. apply sum_ints_from. Qed.

Lemma incr_hour_keys (h k : Z) (d : list (Z * Z)) :
  In k (map fst (incr_hour h d)) <-> k = h \/ In k (map fst d).
Proof.
  induction d as [|[k' n] d IH]; simpl.
  - intuition.
  - destruct (Z.eqb_spec k' h) as [->|Hne]; simpl; [intuition|].
    rewrite IH. intuition.
Qed.

Lemma incr_hour_keeps (h : Z) (d : list (Z * Z)) :
  NoDup (map fst d) ->
  NoDup (map fst (incr_hour h d))
  /\ sum_ints (map snd (incr_hour h d)) = sum_ints (map snd d) + 1.
Proof.
  induction d as [|[k n] d IH]; intros Hnd; simpl.
  - split; [constructor; [intros [] | constructor] | reflexivity].
  - inversion Hnd as [|? ? Hk Hd]; subst.
    destruct (Z.eqb_spec k h) as [->|Hne]; simpl.
    + split; [exact Hnd|]. rewrite !sum_ints_cons. lia.
    + destruct (IH Hd) as [Hnd' Hsum]. split.
      * constructor; [|exact Hnd']. rewrite incr_hour_keys. intuition.
      * rewrite !sum_ints_cons, Hsum. lia.
Qed.

Lemma incr_date_keys (key k : string) (fresh : DateInfo)
    (d : list (string * DateInfo)) :
  In k (map fst (incr_date key fresh d)) <-> k = key \/ In k (map fst d).
Proof.
  induction d as [|[k' i] d IH]; simpl.
  - intuition.
  - destruct (String.eqb_spec k' key) as [->|Hne]; simpl; [intuition|].
    rewrite IH. intuition.
Qed.

Lemma incr_date_keeps (key : string) (fresh : DateInfo)
    (d : list (string * DateInfo)) :
  count fresh = 0 ->
  NoDup (map fst d) ->
  NoDup (map fst (incr_date key fresh d))
  /\ sum_ints (map (fun kv => count (snd kv)) (incr_date key fresh d))
     = sum_ints (map (fun kv => count (snd kv)) d) + 1.
Proof.
  intros Hfresh. induction d as [|[k i] d IH]; intros Hnd; simpl.
  - split; [constructor; [intros [] | constructor]|].
    rewrite sum_ints_cons, Hfresh. reflexivity.
  - inversion Hnd as [|? ? Hk Hd]; subst.
    destruct (String.eqb_spec k key) as [->|Hne]; simpl.
    + split; [exact Hnd|]. rewrite !sum_ints_cons. simpl. lia.
    + destruct (IH Hd) as [Hnd' Hsum]. split.
      * constructor; [|exact Hnd']. rewrite incr_date_keys. intuition.
      * rewrite !sum_ints_cons, Hsum. lia.
Qed.

Lemma hours_of_visits_keeps (tz : ZoneInfo) (vs : list CatVisit) :
  NoDup (map fst (hours_of_visits tz vs))
  /\ sum_ints (map snd (hours_of_visits tz vs)) = Z.of_nat (List.length vs).
Proof.
  unfold hours_of_visits.
  assert (G : forall d, NoDup (map fst d) ->
    NoDup (map fst (fold_left
      (fun d visit => incr_hour (local_hour tz (cv_timestamp visit)) d) vs d))
    /\ sum_ints (map snd (fold_left
         (fun d visit => incr_hour (local_hour tz (cv_timestamp visit)) d) vs d))
       = sum_ints (map snd d) + Z.of_nat (List.length vs)).
  { induction vs as [|v vs IH]; intros d Hd; cbn [fold_left List.length].
    - split; [exact Hd | lia].
    - destruct (incr_hour_keeps (local_hour tz (cv_timestamp v)) d Hd)
        as [Hnd Hsum].
      destruct (IH _ Hnd) as [Hnd' Hsum']. split; [exact Hnd'|].
      rewrite Hsum', Hsum. lia. }
  destruct (G [] (NoDup_nil _)) as [Hnd Hsum]. split; [exact Hnd|].
  rewrite Hsum. reflexivity.
Qed.

Lemma dates_of_visits_keeps (tz : ZoneInfo) (vs : list CatVisit) :
  NoDup (map fst (dates_of_visits tz vs))
  /\ sum_ints (map (fun kv => count (snd kv)) (dates_of_visits tz vs))
     = Z.of_nat (List.length vs).
Proof.
  unfold dates_of_visits.
  set (f := fun (d : list (string * DateInfo)) (visit : CatVisit) => _).
  assert (G : forall d, NoDup (map fst d) ->
    NoDup (map fst (fold_left f vs d))
    /\ sum_ints (map (fun kv => count (snd kv)) (fold_left f vs d))
       = sum_ints (map (fun kv => count (snd kv)) d)
         + Z.of_nat (List.length vs)).
  { induction vs as [|v vs IH]; intros d Hd; cbn [fold_left List.length].
    - split; [exact Hd | lia].
    - assert (Hstep : NoDup (map fst (f d v))
                /\ sum_ints (map (fun kv => count (snd kv)) (f d v))
                   = sum_ints (map (fun kv => count (snd kv)) d) + 1).
      { unfold f. apply incr_date_keeps; [reflexivity | exact Hd]. }
      destruct Hstep as [Hnd Hsum].
      destruct (IH _ Hnd) as [Hnd' Hsum']. split; [exact Hnd'|].
      rewrite Hsum', Hsum. lia. }
  destruct (G [] (NoDup_nil _)) as [Hnd Hsum]. split; [exact Hnd|].
  rewrite Hsum. reflexivity.
Qed.

(** X10: every visit is counted once in the hourly buckets and once in the
    daily buckets: the counts of each add up to the number of visits, and no
    hour and no date has two buckets. *)
Theorem buckets_count_every_visit
    (tz : ZoneInfo) (pow : float -> float -> result float)
    (activities : list Activity) (stats : Stats) :
  parse_activity_history tz pow activities = Ok stats ->
  sum_ints (map snd (visits_by_hour stats))
  = Z.of_nat (List.length (visits stats))
  /\ sum_ints (map (fun kv => count (snd kv)) (visits_by_date stats))
     = Z.of_nat (List.length (visits stats))
  /\ NoDup (map fst (visits_by_hour stats))
  /\ NoDup (map fst (visits_by_date stats)).
Proof.
  intros H. apply parse_fields in H
    as (s & _ & _ & _ & -> & _ & _ & _ & -> & -> & _).
  destruct (hours_of_visits_keeps tz (Loop.visits s)) as [Hh Hhs].
  destruct (dates_of_visits_keeps tz (Loop.visits s)) as [Hd Hds].
  repeat split; assumption.
Qed.

Lemma buckets_count_every_visit_witness :
  parse_activity_history Sample.zone Sample.pow Sample.two_visits
  = Ok Sample.two_visits_stats
  /\ visits_by_hour Sample.two_visits_stats = [(0, 2)]
  /\ sum_ints (map snd (visits_by_hour Sample.two_visits_stats))
     = Z.of_nat (List.length (visits Sample.two_visits_stats)).
Proof.
  assert (H : parse_activity_history Sample.zone Sample.pow Sample.two_visits
              = Ok Sample.two_visits_stats) by (vm_compute; reflexivity).
  split; [exact H|]. split; [reflexivity|].
  exact (proj1 (buckets_count_every_visit _ _ _ _ H)).
Defined.

(** ** Further properties of the document *)

(** More fields of a document that was built. *)
Lemma build_more_fields (tz : ZoneInfo) (generated_at : string) (stats : Stats)
    (robot_name cat_name : string) (doc : pyval) :
  build_data_json tz generated_at stats robot_name cat_name = Ok doc ->
  let by_hour := visits_by_hour stats in
  let peak_hour :=
    match by_hour with
    | [] => 0
    | kv :: rest => fst (max_by snd kv rest)
    end in
  exists busiest_date,
    match visits_by_date stats with
    | [] => Ok PNone
    | kv :: rest =>
        let busiest_info := snd (max_by (fun e => count (snd e)) kv rest) in
        day_name <- list_index day_names (weekday busiest_info) ;;
        Ok (PDict [("day_name", PStr day_name);
                   ("display", PStr (display busiest_info));
                   ("count", PInt (count busiest_info));
                   ("is_weekend", PBool (5 <=? weekday busiest_info))])
    end = Ok busiest_date
    /\ field "busiest_date" doc = Some busiest_date
    /\ field2 "peak_hour" "hour" doc = Some (PInt peak_hour)
    /\ field2 "peak_hour" "count" doc = Some (PInt (hour_count by_hour peak_hour))
    /\ field2 "peak_hour" "display" doc
       = Some (PStr (str_of_int (if (peak_hour mod 12 =? 0)%Z then 12
                                 else peak_hour mod 12)
                     ++ ":00 " ++ (if (peak_hour <? 12)%Z then "AM" else "PM"))%string)
    /\ field "chart_data" doc
       = Some (PList (flat_map
                        (fun d => match date_lookup (visits_by_date stats) d with
                                  | Some i => [chart_entry i]
                                  | None => []
                                  end)
                        (sorted (map fst (visits_by_date stats)))))
    /\ field "personality_traits" doc
       = Some (PList (map PStr (personality_traits stats)))
    /\ field2 "weight" "min" doc
       = Some (match weights stats with
               | [] => PInt 0
               | w :: ws => PFloat (PyFloat.round (PyFloat.min_from w ws) 1)
               end)
    /\ field2 "weight" "max" doc
       = Some (match weights stats with
               | [] => PInt 0
               | w :: ws => PFloat (PyFloat.round (PyFloat.max_from w ws) 1)
               end)
    /\ (weights stats = [] -> field2 "weight" "average" doc = Some (PInt 0)).
Proof.
  unfold build_data_json. intros H. cbv zeta.
  destruct (date_range stats) as [start end_].
  apply bind_ok in H as (visits_per_day & Hvpd & H).
  apply bind_ok in H as (avg_weight & Havg & H).
  apply bind_ok in H as (busiest_date & Hbusiest & H).
  apply bind_ok in H as (longest & Hlongest & H).
  apply bind_ok in H as (shortest & Hshortest & H).
  apply bind_ok in H as (total & Htotal & H).
  apply bind_ok in H as (lbs & Hlbs & H).
  apply bind_ok in H as (range_display & _ & H).
  injection H as <-.
  exists busiest_date. split; [exact Hbusiest|].
  do 6 (split; [reflexivity|]).
  split; [destruct (weights stats); reflexivity|].
  split; [destruct (weights stats); reflexivity|].
  intros Hw. rewrite Hw in Havg. injection Havg as <-. reflexivity.
Qed.

Lemma max_by_spec {A : Type} (key : A -> Z) (xs : list A) :
  forall x, In (max_by key x xs) (x :: xs)
            /\ Forall (fun y => key y <= key (max_by key x xs)) (x :: xs).
Proof.
  unfold max_by. induction xs as [|y xs IH]; intros x; cbn [fold_left].
  - split; [left; reflexivity | constructor; [lia | constructor]].
  - destruct (Z.ltb_spec (key x) (key y)) as [Hlt|Hge].
    + destruct (IH y) as [Hin Hall]. inversion Hall as [|? ? Hy Hxs]; subst.
      split; [right; exact Hin|].
      constructor; [lia|]. constructor; assumption.
    + destruct (IH x) as [Hin Hall]. inversion Hall as [|? ? Hx Hxs]; subst.
      split; [destruct Hin as [<-|Hin]; [left; reflexivity | right; right; exact Hin]|].
      constructor; [exact Hx|]. constructor; [lia | exact Hxs].
Qed.

Lemma hour_count_of_key (d : list (Z * Z)) (k v : Z) :
  NoDup (map fst d) -> In (k, v) d -> hour_count d k = v.
Proof.
  induction d as [|[k' n] d IH]; intros Hnd Hin; [destruct Hin|].
  inversion Hnd as [|? ? Hk Hd]; subst. simpl.
  destruct Hin as [Heq|Hin].
  - injection Heq as -> ->. rewrite Z.eqb_refl. reflexivity.
  - destruct (Z.eqb_spec k' k) as [->|Hne]; [|apply IH; assumption].
    exfalso. apply Hk. apply (in_map fst) in Hin. exact Hin.
Qed.

Lemma hour_count_cases (d : list (Z * Z)) (h : Z) :
  hour_count d h = 0 \/ In (h, hour_count d h) d.
Proof.
  induction d as [|[k n] d IH]; simpl; [left; reflexivity|].
  destruct (Z.eqb_spec k h) as [->|Hne]; [right; left; reflexivity|].
  destruct IH as [H|H]; [left; exact H | right; right; exact H].
Qed.

(** X11: the peak hour of the document is an hour with the greatest number
    of visits: its count is the number of visits at that local hour and no
    hour has more. *)
Theorem peak_hour_has_most_visits
    (tz : ZoneInfo) (pow : float -> float -> result float)
    (generated_at robot_name cat_name : string)
    (activities : list Activity) (stats : Stats) (doc : pyval) :
  parse_activity_history tz pow activities = Ok stats ->
  build_data_json tz generated_at stats robot_name cat_name = Ok doc ->
  exists peak_hour,
    field2 "peak_hour" "hour" doc = Some (PInt peak_hour)
    /\ field2 "peak_hour" "count" doc
       = Some (PInt (visits_at_hour tz (visits stats) peak_hour))
    /\ forall h, visits_at_hour tz (visits stats) h
                 <= visits_at_hour tz (visits stats) peak_hour.
Proof.
  intros Hparse Hbuild.
  apply build_more_fields in Hbuild. cbv zeta in Hbuild.
  destruct Hbuild as (busiest & _ & _ & Hhour & Hcount & _).
  apply parse_fields in Hparse as (s & _ & _ & _ & Hv & _ & _ & _ & Hby & _).
  rewrite Hby in Hhour, Hcount. rewrite Hv. clear Hby Hv.
  unfold visits_at_hour.
  pose proof (hour_count_visits tz (Loop.visits s)) as Hc.
  destruct (hours_of_visits_keeps tz (Loop.visits s)) as [Hnd _].
  set (d := hours_of_visits tz (Loop.visits s)) in *.
  eexists. split; [exact Hhour|]. rewrite <- Hc. split; [exact Hcount|].
  intros h. rewrite <- Hc.
  destruct d as [|kv rest] eqn:Hd; [reflexivity|].
  destruct (max_by_spec snd rest kv) as [Hin Hall].
  rewrite Forall_forall in Hall.
  set (m := max_by snd kv rest) in *.
  assert (Hm : hour_count (kv :: rest) (fst m) = snd m).
  { apply hour_count_of_key; [exact Hnd|]. destruct m; exact Hin. }
  rewrite Hm. destruct (hour_count_cases (kv :: rest) h) as [H0|Hin'].
  - rewrite H0, <- Hm, Hc. lia.
  - apply (Hall _ Hin').
Qed.

Lemma peak_hour_has_most_visits_witness :
  parse_activity_history Sample.zone Sample.pow Sample.scenario_a
  = Ok Sample.scenario_a_stats
  /\ build_data_json Sample.zone "now" Sample.scenario_a_stats "robot" "cat"
     = Ok Sample.scenario_a_doc
  /\ field2 "peak_hour" "count" Sample.scenario_a_doc = Some (PInt 1)
  /\ exists peak_hour,
       field2 "peak_hour" "hour" Sample.scenario_a_doc = Some (PInt peak_hour)
       /\ forall h, visits_at_hour Sample.zone (visits Sample.scenario_a_stats) h
                    <= visits_at_hour Sample.zone
                         (visits Sample.scenario_a_stats) peak_hour.
Proof.
  assert (H1 : parse_activity_history Sample.zone Sample.pow Sample.scenario_a
               = Ok Sample.scenario_a_stats) by (vm_compute; reflexivity).
  assert (H2 : build_data_json Sample.zone "now" Sample.scenario_a_stats
                 "robot" "cat" = Ok Sample.scenario_a_doc)
    by (vm_compute; reflexivity).
  split; [exact H1|]. split; [exact H2|]. split; [reflexivity|].
  destruct (peak_hour_has_most_visits _ _ _ _ _ _ _ _ H1 H2)
    as (peak & Hh & _ & Hmax).
  exists peak. split; assumption.
Defined.

(** X12: when the statistics and the document of a log are produced and
    the log completed no visit, the document has no personality trait, an
    empty chart, no busiest date, "N/A" for both gaps, the peak hour 0 with
    count 0 shown as "12:00 AM", and an estimated output of 0.0 oz and 0.0
    lbs, whatever other events the log holds. *)
Theorem document_without_visits
    (tz : ZoneInfo) (pow : float -> float -> result float)
    (generated_at robot_name cat_name : string)
    (activities : list Activity) (stats : Stats) (doc : pyval) :
  parse_activity_history tz pow activities = Ok stats ->
  build_data_json tz generated_at stats robot_name cat_name = Ok doc ->
  visits stats = [] ->
  field "total_visits" doc = Some (PInt 0)
  /\ field "personality_traits" doc = Some (PList [])
  /\ field "chart_data" doc = Some (PList [])
  /\ field "busiest_date" doc = Some PNone
  /\ field2 "timing" "longest_gap" doc = Some (PStr "N/A")
  /\ field2 "timing" "shortest_gap" doc = Some (PStr "N/A")
  /\ field2 "peak_hour" "hour" doc = Some (PInt 0)
  /\ field2 "peak_hour" "count" doc = Some (PInt 0)
  /\ field2 "peak_hour" "display" doc = Some (PStr "12:00 AM")
  /\ field2 "output" "oz" doc = Some (PFloat 0)
  /\ field2 "output" "lbs" doc = Some (PFloat 0).
Proof.
  intros Hparse Hbuild Hnone.
  pose proof (build_fields _ _ _ _ _ _ Hbuild) as Hf. cbv zeta in Hf.
  pose proof (build_more_fields _ _ _ _ _ _ Hbuild) as Hm. cbv zeta in Hm.
  apply parse_fields in Hparse
    as (s & reg & weekly & _ & Hv & _ & _ & _ & Hby & Hbd & Hl & Hsh
        & Hreg & Hweek & Htraits).
  rewrite Hnone in Hv. rewrite <- Hv in *. clear Hv.
  change (hours_of_visits tz []) with (@nil (Z * Z)) in Hby.
  change (dates_of_visits tz []) with (@nil (string * DateInfo)) in Hbd.
  simpl in Hl, Hsh, Hreg. injection Hreg as <-.
  rewrite Hbd in Hweek. simpl in Hweek. injection Hweek as <-.
  rewrite Hby in Htraits. simpl in Htraits.
  destruct Hf as (vpd & total & lbs & longest & shortest & _ & Htotal & Hlbs
                  & Hlg & Hsg & Htv & _ & Hflg & Hfsg & _ & _ & Hoz & Hflbs).
  destruct Hm as (busiest & Hb & Hfb & Hph & Hpc & Hpd & Hchart & Hft & _).
  rewrite Hnone in Htv, Htotal. simpl in Htv, Htotal.
  injection Htotal as <-.
  rewrite Hl in Hlg. rewrite Hsh in Hsg. simpl in Hlg, Hsg.
  injection Hlg as <-. injection Hsg as <-.
  rewrite Hbd in Hb, Hchart. injection Hb as <-.
  rewrite Hby in Hph, Hpc, Hpd. rewrite Htraits in Hft.
  vm_compute in Hlbs. injection Hlbs as <-.
  repeat split; assumption.
Qed.

Lemma document_without_visits_witness :
  parse_activity_history Sample.zone Sample.pow Sample.scenario_d
  = Ok Sample.scenario_d_stats
  /\ visits Sample.scenario_d_stats = []
  /\ field "busiest_date" (Sample.doc_of Sample.scenario_d_stats) = Some PNone
  /\ field2 "peak_hour" "display" (Sample.doc_of Sample.scenario_d_stats)
     = Some (PStr "12:00 AM").
Proof.
  assert (H1 : parse_activity_history Sample.zone Sample.pow Sample.scenario_d
               = Ok Sample.scenario_d_stats) by (vm_compute; reflexivity).
  assert (H2 : build_data_json Sample.zone "now" Sample.scenario_d_stats
                 "robot" "cat" = Ok (Sample.doc_of Sample.scenario_d_stats))
    by (vm_compute; reflexivity).
  split; [exact H1|]. split; [reflexivity|].
  destruct (document_without_visits _ _ _ _ _ _ _ _ H1 H2 eq_refl)
    as (_ & _ & _ & Hb & _ & _ & _ & _ & Hd & _).
  split; assumption.
Defined.

(** The buckets of [dates_of_visits] hold at least one visit each and carry
    the weekday of one of the visits. *)
Lemma dates_of_visits_entries (tz : ZoneInfo) (vs : list CatVisit) :
  Forall (fun kv => 1 <= count (snd kv)
                    /\ exists v, In v vs
                         /\ weekday (snd kv) = local_weekday tz (cv_timestamp v))
    (dates_of_visits tz vs).
Proof.
  unfold dates_of_visits.
  set (f := fun (d : list (string * DateInfo)) (visit : CatVisit) => _).
  set (P := fun (seen : list CatVisit) (kv : string * DateInfo) =>
              1 <= count (snd kv)
              /\ exists v, In v seen
                   /\ weekday (snd kv) = local_weekday tz (cv_timestamp v)).
  assert (G : forall rest seen d,
            Forall (P seen) d -> Forall (P (seen ++ rest)) (fold_left f rest d)).
  { induction rest as [|v rest IH]; intros seen d Hd; cbn [fold_left].
    - rewrite app_nil_r. exact Hd.
    - change (v :: rest) with ([v] ++ rest). rewrite app_assoc.
      apply IH. unfold f.
      set (key := local_strftime tz "%Y-%m-%d" (cv_timestamp v)).
      set (fresh := {| count := 0 |}).
      assert (Hfresh : weekday fresh = local_weekday tz (cv_timestamp v))
        by reflexivity.
      assert (Hcount : count fresh = 0) by reflexivity.
      clearbody fresh key. clear IH.
      induction d as [|[k i] d IHd]; simpl.
      + constructor; [|constructor]. split; simpl; [lia|].
        exists v. split; [apply in_app_iff; right; left; reflexivity | exact Hfresh].
      + inversion Hd as [|? ? [Hc (v0 & Hv0 & Hw)] Hrest]; subst.
        destruct (k =? key)%string.
        * constructor.
          -- split; simpl; [simpl in Hc; lia|].
             exists v0. split; [apply in_app_iff; left; exact Hv0 | exact Hw].
          -- revert Hrest. apply Forall_impl. intros kv [Hc' (v1 & Hv1 & Hw1)].
             split; [exact Hc'|]. exists v1.
             split; [apply in_app_iff; left; exact Hv1 | exact Hw1].
        * constructor; [|apply IHd; exact Hrest].
          split; [exact Hc|]. exists v0.
          split; [apply in_app_iff; left; exact Hv0 | exact Hw]. }
  apply (G vs [] []). constructor.
Qed.

(** X13: when the zone gives weekdays 0 (Monday) to 6 (Sunday) and the log
    has a visit, the busiest date of the document is a bucket with the
    greatest count, its day name is the name of its weekday, and
    [is_weekend] holds exactly for Saturday and Sunday. *)
Theorem busiest_date_is_consistent
    (tz : ZoneInfo) (pow : float -> float -> result float)
    (generated_at robot_name cat_name : string)
    (activities : list Activity) (stats : Stats) (doc : pyval) :
  (forall t, 0 <= local_weekday tz t < 7) ->
  parse_activity_history tz pow activities = Ok stats ->
  build_data_json tz generated_at stats robot_name cat_name = Ok doc ->
  visits stats <> [] ->
  exists key info day_name,
    In (key, info) (visits_by_date stats)
    /\ field "busiest_date" doc
       = Some (PDict [("day_name", PStr day_name);
                      ("display", PStr (display info));
                      ("count", PInt (count info));
                      ("is_weekend", PBool (5 <=? weekday info))])
    /\ nth_error day_names (Z.to_nat (weekday info)) = Some day_name
    /\ ((5 <=? weekday info) = true
        <-> day_name = "Saturday" \/ day_name = "Sunday")
    /\ 1 <= count info
    /\ forall k i, In (k, i) (visits_by_date stats) -> count i <= count info.
Proof.
  intros Htz Hparse Hbuild Hsome.
  apply build_more_fields in Hbuild. cbv zeta in Hbuild.
  destruct Hbuild as (busiest & Hb & Hfb & _).
  apply parse_fields in Hparse
    as (s & _ & _ & _ & Hv & _ & _ & _ & _ & Hbd & _).
  pose proof (dates_of_visits_entries tz (Loop.visits s)) as Hentries.
  rewrite <- Hbd in Hentries. rewrite Forall_forall in Hentries.
  destruct (visits_by_date stats) as [|kv rest] eqn:Hd.
  { exfalso. apply Hsome. rewrite Hv.
    destruct (Loop.visits s) as [|v vs]; [reflexivity|].
    pose proof (dates_of_visits_keeps tz (v :: vs)) as [_ Hsum].
    rewrite <- Hbd in Hsum. simpl in Hsum. unfold sum_ints in Hsum.
    simpl in Hsum. lia. }
  cbv zeta in Hb.
  destruct (max_by_spec (fun e => count (snd e)) rest kv) as [Hin Hall].
  set (m := max_by (fun e => count (snd e)) kv rest) in *.
  destruct (Hentries m Hin) as [Hc (v & _ & Hw)].
  assert (Hrange : 0 <= weekday (snd m) < 7) by (rewrite Hw; apply Htz).
  apply bind_ok in Hb as (day_name & Hday & Hb). injection Hb as <-.
  exists (fst m), (snd m), day_name.
  split; [destruct m; exact Hin|]. split; [exact Hfb|].
  assert (Hcases : weekday (snd m) = 0 \/ weekday (snd m) = 1
                   \/ weekday (snd m) = 2 \/ weekday (snd m) = 3
                   \/ weekday (snd m) = 4 \/ weekday (snd m) = 5
                   \/ weekday (snd m) = 6) by lia.
  split; [|split; [|split; [exact Hc|]]].
  - destruct Hcases as [E|[E|[E|[E|[E|[E|E]]]]]]; rewrite E in Hday |- *;
      vm_compute in Hday; injection Hday as <-; reflexivity.
  - destruct Hcases as [E|[E|[E|[E|[E|[E|E]]]]]]; rewrite E in Hday |- *;
      vm_compute in Hday; injection Hday as <-;
      (split; [intros H; try discriminate H; auto
              | intros [H|H]; try discriminate H; reflexivity]).
  - intros k i Hki. rewrite Forall_forall in Hall. apply (Hall (k, i) Hki).
Qed.

Lemma sample_zone_weekdays (t : Z) : 0 <= local_weekday Sample.zone t < 7.
Proof. simpl. apply Z.mod_pos_bound. lia. Qed.

Lemma busiest_date_is_consistent_witness :
  parse_activity_history Sample.zone Sample.pow Sample.scenario_a
  = Ok Sample.scenario_a_stats
  /\ build_data_json Sample.zone "now" Sample.scenario_a_stats "robot" "cat"
     = Ok Sample.scenario_a_doc
  /\ field2 "busiest_date" "day_name" Sample.scenario_a_doc
     = Some (PStr "Thursday")
  /\ exists key info day_name,
       In (key, info) (visits_by_date Sample.scenario_a_stats)
       /\ nth_error day_names (Z.to_nat (weekday info)) = Some day_name
       /\ 1 <= count info.
Proof.
  assert (H1 : parse_activity_history Sample.zone Sample.pow Sample.scenario_a
               = Ok Sample.scenario_a_stats) by (vm_compute; reflexivity).
  assert (H2 : build_data_json Sample.zone "now" Sample.scenario_a_stats
                 "robot" "cat" = Ok Sample.scenario_a_doc)
    by (vm_compute; reflexivity).
  split; [exact H1|]. split; [exact H2|]. split; [reflexivity|].
  destruct (busiest_date_is_consistent _ _ _ _ _ _ _ _
              sample_zone_weekdays H1 H2)
    as (key & info & name & Hin & _ & Hn & _ & Hc & _).
  { discriminate. }
  exists key, info, name. repeat split; assumption.
Defined.

(** ** The personality traits as a whole *)

Lemma time_of_day_traits_cases (by_hour : list (Z * Z)) :
  time_of_day_traits by_hour = [] \/
  exists p, time_of_day_traits by_hour = [label p].
Proof.
  unfold time_of_day_traits, max_by. destruct by_hour as [|kv d]; [left; reflexivity|].
  cbn [fold_left fst snd].
  repeat match goal with
         | |- context [if ?b then _ else _] => destruct b; cbn [fst snd]
         end;
    first [ left; reflexivity
          | right; exists Night; reflexivity
          | right; exists Morning; reflexivity
          | right; exists Afternoon; reflexivity
          | right; exists Evening; reflexivity ].
Qed.

Lemma regularity_traits_cases (pow : float -> float -> result float)
    (gaps : list timedelta) (traits : list string) :
  regularity_traits pow gaps = Ok traits ->
  (traits = [] \/ traits = ["Creature of Habit"] \/ traits = ["Chaotic Pooper"])
  /\ (gaps = [] -> traits = []).
Proof.
  unfold regularity_traits. destruct gaps as [|g gaps]; intros H.
  - injection H as <-. auto.
  - split; [|discriminate]. cbv zeta in H. open_binds. injection H as <-.
    repeat match goal with
           | |- context [if ?b then _ else _] => destruct b
           end; auto.
Qed.

Lemma weekly_traits_cases (by_date : list (string * DateInfo))
    (traits : list string) :
  weekly_traits by_date = Ok traits ->
  (traits = [] \/ traits = ["Weekend Warrior"] \/ traits = ["Weekday Regular"])
  /\ (by_date = [] -> traits = []).
Proof.
  unfold weekly_traits. destruct by_date as [|kv d]; intros H.
  - injection H as <-. auto.
  - split; [|discriminate]. cbv zeta in H. open_binds. injection H as <-.
    repeat match goal with
           | |- context [if ?b then _ else _] => destruct b
           end; auto.
Qed.

(** X14: the personality traits are at most three labels, in the order of
    the rules: at most one time-of-day label, then at most one of "Creature
    of Habit" and "Chaotic Pooper", then at most one of "Weekend Warrior" and
    "Weekday Regular"; with fewer than two visits there is no regularity
    label. *)
Theorem personality_traits_shape
    (tz : ZoneInfo) (pow : float -> float -> result float)
    (activities : list Activity) (stats : Stats) :
  parse_activity_history tz pow activities = Ok stats ->
  exists time_of_day regularity weekly,
    personality_traits stats = time_of_day ++ regularity ++ weekly
    /\ (time_of_day = [] \/ exists p, time_of_day = [label p])
    /\ (regularity = [] \/ regularity = ["Creature of Habit"]
        \/ regularity = ["Chaotic Pooper"])
    /\ (weekly = [] \/ weekly = ["Weekend Warrior"]
        \/ weekly = ["Weekday Regular"])
    /\ ((List.length (visits stats) < 2)%nat -> regularity = [])
    /\ (List.length (personality_traits stats) <= 3)%nat.
Proof.
  intros H. apply parse_fields in H
    as (s & reg & weekly & _ & Hv & _ & _ & _ & _ & _ & _ & _ & Hreg & Hweek & Ht).
  destruct (regularity_traits_cases _ _ _ Hreg) as [Hr Hr0].
  destruct (weekly_traits_cases _ _ Hweek) as [Hw _].
  pose proof (time_of_day_traits_cases (visits_by_hour stats)) as Hd.
  exists (time_of_day_traits (visits_by_hour stats)), reg, weekly.
  split; [exact Ht|]. split; [exact Hd|]. split; [exact Hr|].
  split; [exact Hw|]. split.
  - intros Hfew. apply Hr0. rewrite Hv in Hfew.
    pose proof (visit_gaps_length (Loop.visits s)) as Hlen.
    destruct (visit_gaps_of (Loop.visits s)); [reflexivity | simpl in Hlen; lia].
  - rewrite Ht, !length_app.
    destruct Hd as [->|[p ->]], Hr as [->|[->| ->]], Hw as [->|[->| ->]];
      simpl; lia.
Qed.

Lemma personality_traits_shape_witness :
  parse_activity_history Sample.zone Sample.pow Sample.two_visits
  = Ok Sample.two_visits_stats
  /\ personality_traits Sample.two_visits_stats
     = ["Night Owl"; "Creature of Habit"; "Weekday Regular"]
  /\ (List.length (personality_traits Sample.two_visits_stats) <= 3)%nat.
Proof.
  assert (H : parse_activity_history Sample.zone Sample.pow Sample.two_visits
              = Ok Sample.two_visits_stats) by (vm_compute; reflexivity).
  split; [exact H|]. split; [reflexivity|].
  destruct (personality_traits_shape _ _ _ _ H)
    as (a & b & c & _ & _ & _ & _ & _ & Hlen).
  exact Hlen.
Defined.

(** ** The chart *)

Lemma not_ltb_leb (a b : string) :
  String.ltb a b = false -> String.leb b a = true.
Proof.
  unfold String.ltb, String.leb. rewrite (String.compare_antisym b a).
  destruct (String.compare a b); simpl; congruence.
Qed.

Lemma ltb_leb (a b : string) :
  String.ltb a b = true -> String.leb a b = true.
Proof.
  unfold String.ltb, String.leb. destruct (String.compare a b); congruence.
Qed.

Lemma insert_sorted_perm (k : string) (l : list string) :
  Permutation (k :: l) (insert_sorted k l).
Proof.
  induction l as [|x l IH]; simpl; [reflexivity|].
  destruct (String.ltb k x); [reflexivity|].
  rewrite perm_swap. apply perm_skip. exact IH.
Qed.

Lemma insert_sorted_sorted (k : string) (l : list string) :
  Sorted (fun a b => String.leb a b = true) l ->
  Sorted (fun a b => String.leb a b = true) (insert_sorted k l).
Proof.
  induction l as [|x l IH]; intros Hs; simpl.
  - constructor; constructor.
  - destruct (String.ltb k x) eqn:Hk.
    + constructor; [exact Hs|]. constructor. apply ltb_leb. exact Hk.
    + inversion Hs as [|? ? Hl Hhd]; subst. constructor; [apply IH; exact Hl|].
      destruct l as [|y l]; simpl.
      * constructor. apply not_ltb_leb. exact Hk.
      * destruct (String.ltb k y).
        -- constructor. apply not_ltb_leb. exact Hk.
        -- inversion Hhd; subst. constructor. assumption.
Qed.

Lemma sorted_spec (keys : list string) :
  Permutation keys (sorted keys)
  /\ Sorted (fun a b => String.leb a b = true) (sorted keys).
Proof.
  unfold sorted. rewrite (Permutation_rev keys) at 1.
  induction (rev keys) as [|k l [IHp IHs]]; simpl.
  - split; [reflexivity | constructor].
  - split; [|apply insert_sorted_sorted; exact IHs].
    rewrite <- insert_sorted_perm. apply perm_skip. exact IHp.
Qed.

Lemma date_lookup_in (d : list (string * DateInfo)) (k : string) :
  In k (map fst d) -> exists i, date_lookup d k = Some i /\ In (k, i) d.
Proof.
  induction d as [|[k' i] d IH]; simpl; [intros []|].
  destruct (String.eqb_spec k' k) as [->|Hne].
  - intros _. exists i. split; [reflexivity | left; reflexivity].
  - intros [H|H]; [congruence|]. destruct (IH H) as (j & Hj & Hin).
    exists j. split; [exact Hj | right; exact Hin].
Qed.

Lemma chart_entries (d : list (string * DateInfo)) (keys : list string) :
  (forall k, In k keys -> In k (map fst d)) ->
  Forall2 (fun k e => exists i, In (k, i) d /\ e = chart_entry i) keys
    (flat_map (fun k => match date_lookup d k with
                        | Some i => [chart_entry i]
                        | None => []
                        end) keys).
Proof.
  induction keys as [|k l IH]; intros Hin; simpl; [constructor|].
  destruct (date_lookup_in d k) as (i & -> & Hi).
  { apply Hin. left. reflexivity. }
  simpl. constructor; [exists i; split; [exact Hi | reflexivity]|].
  apply IH. intros k' Hk'. apply Hin. right. exact Hk'.
Qed.

(** X15: the chart of the document has one entry per date bucket, in
    ascending order of the date keys, each entry showing the weekday name,
    the display date and the count of its bucket. *)
Theorem chart_data_in_date_order
    (tz : ZoneInfo) (generated_at : string) (stats : Stats)
    (robot_name cat_name : string) (doc : pyval) :
  build_data_json tz generated_at stats robot_name cat_name = Ok doc ->
  exists keys entries,
    field "chart_data" doc = Some (PList entries)
    /\ Permutation (map fst (visits_by_date stats)) keys
    /\ Sorted (fun a b => String.leb a b = true) keys
    /\ Forall2 (fun k e => exists i, In (k, i) (visits_by_date stats)
                                     /\ e = chart_entry i) keys entries.
Proof.
  intros H. apply build_more_fields in H. cbv zeta in H.
  destruct H as (busiest & _ & _ & _ & _ & _ & Hchart & _).
  destruct (sorted_spec (map fst (visits_by_date stats))) as [Hperm Hsorted].
  exists (sorted (map fst (visits_by_date stats))). eexists.
  split; [exact Hchart|]. split; [exact Hperm|]. split; [exact Hsorted|].
  apply chart_entries.
  intros k Hk. apply (Permutation_in k (Permutation_sym Hperm) Hk).
Qed.

Lemma chart_data_in_date_order_witness :
  build_data_json Sample.zone "now" Sample.scenario_a_stats "robot" "cat"
  = Ok Sample.scenario_a_doc
  /\ exists keys entries,
       field "chart_data" Sample.scenario_a_doc = Some (PList entries)
       /\ Permutation (map fst (visits_by_date Sample.scenario_a_stats)) keys
       /\ Sorted (fun a b => String.leb a b = true) keys.
Proof.
  assert (H : build_data_json Sample.zone "now" Sample.scenario_a_stats
                "robot" "cat" = Ok Sample.scenario_a_doc)
    by (vm_compute; reflexivity).
  split; [exact H|].
  destruct (chart_data_in_date_order _ _ _ _ _ _ H)
    as (keys & entries & Hf & Hp & Hs & _).
  exists keys, entries. repeat split; assumption.
Defined.

(** ** Reading a weight label *)

Lemma span_app (p : ascii -> bool) (g rest : string) :
  string_forall p g = true ->
  match rest with
  | EmptyString => True
  | String c _ => p c = false
  end ->
  span p (g ++ rest)%string = (g, rest).
Proof.
  intros Hg Hrest. induction g as [|c g IH]; simpl in *.
  - destruct rest as [|c rest]; [reflexivity|]. simpl. rewrite Hrest. reflexivity.
  - apply andb_true_iff in Hg as [Hc Hg]. rewrite Hc, (IH Hg). reflexivity.
Qed.

Lemma space_is_no_digit (c : ascii) :
  is_space c = true -> is_digit c || is_dot c = false.
Proof.
  destruct c as [[] [] [] [] [] [] [] []]; vm_compute; congruence.
Qed.

Lemma all_digits_forall (s : string) :
  all_digits s = string_forall is_digit s.
Proof. induction s as [|c s IH]; simpl; [reflexivity | rewrite IH; reflexivity]. Qed.

Lemma digits_are_digits_or_dots (s : string) :
  string_forall is_digit s = true ->
  string_forall (fun c => is_digit c || is_dot c) s = true.
Proof.
  induction s as [|c s IH]; simpl; [reflexivity|].
  intros H. apply andb_true_iff in H as [-> H]. simpl. apply IH. exact H.
Qed.

Lemma string_forall_app (p : ascii -> bool) (a b : string) :
  string_forall p (a ++ b)%string = string_forall p a && string_forall p b.
Proof.
  induction a as [|c a IH]; simpl; [reflexivity|].
  rewrite IH, andb_assoc. reflexivity.
Qed.

Lemma search_lbs_eq (s : string) :
  search_lbs s
  = match match_lbs_here s with
    | Some g => Some g
    | None => match s with
              | EmptyString => None
              | String _ rest => search_lbs rest
              end
    end.
Proof. destruct s; reflexivity. Qed.

(** The pattern finds a run of digits and dots that is followed by optional
    white space and lbs, when no digit and no dot stands before it. *)
Lemma search_lbs_finds (pre g ws post : string) :
  string_forall (fun c => negb (is_digit c || is_dot c)) pre = true ->
  g <> EmptyString ->
  string_forall (fun c => is_digit c || is_dot c) g = true ->
  string_forall is_space ws = true ->
  search_lbs (pre ++ g ++ ws ++ "lbs" ++ post)%string = Some g.
Proof.
  intros Hpre Hne Hg Hws.
  assert (Hhere : match_lbs_here (g ++ ws ++ "lbs" ++ post)%string = Some g).
  { unfold match_lbs_here. rewrite (span_app _ g).
    - destruct g as [|c g]; [congruence|].
      rewrite (span_app is_space ws); [|exact Hws | reflexivity].
      replace (prefix "lbs" ("lbs" ++ post)) with true; [reflexivity|].
      symmetry. apply prefix_iff. exists post. reflexivity.
    - exact Hg.
    - destruct ws as [|c ws]; simpl; [reflexivity|].
      simpl in Hws. apply andb_true_iff in Hws as [Hc _].
      apply space_is_no_digit. exact Hc. }
  remember (g ++ ws ++ "lbs" ++ post)%string as tail eqn:Htail.
  clear Htail Hne Hg Hws.
  induction pre as [|c pre IH]; rewrite search_lbs_eq; cbn [append].
  - rewrite Hhere. reflexivity.
  - simpl in Hpre. apply andb_true_iff in Hpre as [Hc Hpre].
    unfold match_lbs_here. cbn [span].
    destruct (is_digit c || is_dot c); [discriminate|].
    apply IH. exact Hpre.
Qed.

Lemma float_of_decimal (ip fp : string) :
  string_forall is_digit ip = true ->
  string_forall is_digit fp = true ->
  (ip ++ fp)%string <> EmptyString ->
  float_of_str (ip ++ "." ++ fp)%string
  = Ok (PyFloat.of_ratio (digits_value 0 (ip ++ fp)%string)
          (Z.to_pos (10 ^ Z.of_nat (String.length fp)))).
Proof.
  intros Hip Hfp Hne. unfold float_of_str.
  rewrite (span_app is_digit ip ("." ++ fp)%string Hip); [|reflexivity].
  simpl. rewrite all_digits_forall, Hfp. simpl.
  destruct ip as [|c ip]; simpl.
  - destruct fp as [|c fp]; [simpl in Hne; congruence | reflexivity].
  - reflexivity.
Qed.

(** X16: a weight event whose label holds, after text with no digit and no
    dot, a decimal number (digits, a dot, digits; one side may be empty),
    optional white space and lbs records exactly one sample: the float
    nearest to that decimal number. *)
Theorem decimal_weight_label_is_recorded
    (a : Activity) (pre ip fp ws post : string) :
  Loop.kind_of a = Loop.WeightRecorded ->
  action a = (pre ++ (ip ++ "." ++ fp) ++ ws ++ "lbs" ++ post)%string ->
  string_forall (fun c => negb (is_digit c || is_dot c)) pre = true ->
  string_forall is_digit ip = true ->
  string_forall is_digit fp = true ->
  (ip ++ fp)%string <> EmptyString ->
  string_forall is_space ws = true ->
  recorded_weight a
  = [PyFloat.of_ratio (digits_value 0 (ip ++ fp)%string)
       (Z.to_pos (10 ^ Z.of_nat (String.length fp)))].
Proof.
  intros Hk Ha Hpre Hip Hfp Hne Hws.
  unfold recorded_weight, has_kind. rewrite Hk, Ha.
  rewrite search_lbs_finds; try assumption.
  - rewrite float_of_decimal; [reflexivity | assumption..].
  - destruct ip; discriminate.
  - rewrite string_forall_app. rewrite (digits_are_digits_or_dots ip Hip).
    simpl. apply digits_are_digits_or_dots. exact Hfp.
Qed.

Lemma decimal_weight_label_is_recorded_witness :
  let a := Sample.event "Pet Weight Recorded: 8.5 lbs" 1 in
  Loop.kind_of a = Loop.WeightRecorded
  /\ action a
     = ("Pet Weight Recorded: " ++ ("8" ++ "." ++ "5") ++ " " ++ "lbs"
        ++ EmptyString)%string
  /\ recorded_weight a = [8.5%float].
Proof.
  intros a.
  assert (Hk : Loop.kind_of a = Loop.WeightRecorded) by reflexivity.
  assert (Ha : action a
               = ("Pet Weight Recorded: " ++ ("8" ++ "." ++ "5") ++ " " ++ "lbs"
                  ++ EmptyString)%string) by reflexivity.
  split; [exact Hk|]. split; [exact Ha|].
  rewrite (decimal_weight_label_is_recorded a _ _ _ _ _ Hk Ha);
    [reflexivity | reflexivity | reflexivity | reflexivity | discriminate
    | reflexivity].
Defined.

(** ** A complete visit, and visits at one instant *)

Lemma step_weight_recorded (s : Loop.state) (e : Activity) (g : string) (w : float) :
  Loop.kind_of e = Loop.WeightRecorded ->
  search_lbs (action e) = Some g ->
  float_of_str g = Ok w ->
  Loop.step s e
  = Ok {| Loop.visits := Loop.visits s;
          Loop.weights := Loop.weights s ++ [w];
          Loop.clean_cycles_completed := Loop.clean_cycles_completed s;
          Loop.sensor_interruptions := Loop.sensor_interruptions s;
          Loop.current_visit :=
            match Loop.current_visit s with
            | Some v =>
                Some {| cv_timestamp := cv_timestamp v;
                        weight_lbs := Some w;
                        clean_cycle_duration_seconds :=
                          clean_cycle_duration_seconds v |}
            | None => None
            end;
          Loop.cycle_start_time := Loop.cycle_start_time s |}.
Proof. intros H Hg Hw. by_kind H. rewrite Hg, Hw. reflexivity. Qed.

Lemma step_cycle_started (s : Loop.state) (e : Activity) :
  Loop.kind_of e = Loop.CycleStarted ->
  Loop.step s e
  = Ok {| Loop.visits := Loop.visits s;
          Loop.weights := Loop.weights s;
          Loop.clean_cycles_completed := Loop.clean_cycles_completed s;
          Loop.sensor_interruptions := Loop.sensor_interruptions s;
          Loop.current_visit := Loop.current_visit s;
          Loop.cycle_start_time := Some (timestamp e) |}.
Proof. intros H. by_kind H. reflexivity. Qed.

(** X17: a detection, a readable weight, a cycle start and a cycle
    completion, in this order and from any state, add exactly one visit: it
    starts at the detection, carries the weight, and lasts the seconds from
    the cycle start to the completion; the weight joins the samples, the
    counter grows by one, and no visit and no cycle start stay open. *)
Theorem complete_visit_sequence
    (s : Loop.state) (detected weighed started completed : Activity)
    (g : string) (w d : float) :
  Loop.kind_of detected = Loop.CatDetected ->
  Loop.kind_of weighed = Loop.WeightRecorded ->
  search_lbs (action weighed) = Some g ->
  float_of_str g = Ok w ->
  Loop.kind_of started = Loop.CycleStarted ->
  Loop.kind_of completed = Loop.CycleCompleted ->
  total_seconds (timestamp completed - timestamp started) = Ok d ->
  Loop.run s [detected; weighed; started; completed]
  = Ok {| Loop.visits :=
            Loop.visits s
            ++ [{| cv_timestamp := timestamp detected;
                   weight_lbs := Some w;
                   clean_cycle_duration_seconds := Some d |}];
          Loop.weights := Loop.weights s ++ [w];
          Loop.clean_cycles_completed := Loop.clean_cycles_completed s + 1;
          Loop.sensor_interruptions := Loop.sensor_interruptions s;
          Loop.current_visit := None;
          Loop.cycle_start_time := None |}.
Proof.
  intros Hd Hw Hg Hf Hs Hc Hsecs. cbn [Loop.run].
  rewrite (step_cat_detected _ _ Hd). cbn [bind].
  rewrite (step_weight_recorded _ _ g w Hw Hg Hf). cbn [bind].
  rewrite (step_cycle_started _ _ Hs). cbn [bind].
  rewrite (step_cycle_completed _ _ Hc). simpl.
  rewrite Hsecs. reflexivity.
Qed.

Lemma complete_visit_sequence_witness :
  Loop.run Loop.init (rev Sample.scenario_a)
  = Ok {| Loop.visits :=
            [{| cv_timestamp := 0; weight_lbs := Some 8.5%float;
                clean_cycle_duration_seconds := Some 8%float |}];
          Loop.weights := [8.5%float];
          Loop.clean_cycles_completed := 1;
          Loop.sensor_interruptions := 0;
          Loop.current_visit := None;
          Loop.cycle_start_time := None |}.
Proof.
  exact (complete_visit_sequence Loop.init
           (Sample.event "LitterBoxStatus.CAT_DETECTED" 0)
           (Sample.event "Pet Weight Recorded: 8.5 lbs" 1)
           (Sample.event "LitterBoxStatus.CLEAN_CYCLE: started" 2)
           (Sample.event "LitterBoxStatus.CLEAN_CYCLE_COMPLETE" 10)
           "8.5" 8.5%float 8%float
           eq_refl eq_refl eq_refl eq_refl eq_refl eq_refl eq_refl).
Defined.

Lemma max_opt_zeros (l : list Z) :
  l <> [] -> Forall (fun g => g = 0) l -> max_opt l = Some 0 /\ min_opt l = Some 0.
Proof.
  intros Hne Hall. destruct l as [|x l]; [congruence|].
  inversion Hall as [|? ? -> Hl]; subst. simpl.
  rewrite (fold_max_same 0 l Hl), (fold_min_same 0 l Hl). split; reflexivity.
Qed.

Lemma visit_gaps_same_instant (t : Z) (vs : list CatVisit) :
  Forall (fun v => cv_timestamp v = t) vs ->
  Forall (fun g => g = 0) (visit_gaps_of vs).
Proof.
  induction vs as [|v0 [|v1 vs] IH]; intros H; try constructor.
  - inversion H as [|? ? H0 H']; subst. inversion H' as [|? ? H1 _]; subst.
    lia.
  - apply IH. inversion H; assumption.
Qed.

(** X18: when two or more visits all start at one instant, the gaps exist
    and are zero, and the document shows "N/A" for the longest and the
    shortest gap, as it does when there is no gap at all. *)
Theorem gaps_of_zero_read_as_missing
    (tz : ZoneInfo) (pow : float -> float -> result float)
    (generated_at robot_name cat_name : string)
    (activities : list Activity) (stats : Stats) (doc : pyval) (t : Z) :
  parse_activity_history tz pow activities = Ok stats ->
  build_data_json tz generated_at stats robot_name cat_name = Ok doc ->
  (2 <= List.length (visits stats))%nat ->
  Forall (fun v => cv_timestamp v = t) (visits stats) ->
  longest_gap stats = Some 0
  /\ shortest_gap stats = Some 0
  /\ field2 "timing" "longest_gap" doc = Some (PStr "N/A")
  /\ field2 "timing" "shortest_gap" doc = Some (PStr "N/A").
Proof.
  intros Hparse Hbuild Hmany Hsame.
  apply build_fields in Hbuild. cbv zeta in Hbuild.
  destruct Hbuild as (vpd & total & lbs & longest & shortest & _ & _ & _
                      & Hlg & Hsg & _ & _ & Hflg & Hfsg & _).
  apply parse_fields in Hparse
    as (s & _ & _ & _ & Hv & _ & _ & _ & _ & _ & Hl & Hsh & _).
  rewrite Hv in *.
  pose proof (visit_gaps_length (Loop.visits s)) as Hlen.
  destruct (max_opt_zeros (visit_gaps_of (Loop.visits s))) as [Hmax Hmin].
  { intros He. rewrite He in Hlen. simpl in Hlen. lia. }
  { apply (visit_gaps_same_instant t). exact Hsame. }
  rewrite Hmax in Hl. rewrite Hmin in Hsh.
  rewrite Hl in Hlg. rewrite Hsh in Hsg. simpl in Hlg, Hsg.
  injection Hlg as <-. injection Hsg as <-.
  repeat split; assumption.
Qed.

Lemma gaps_of_zero_read_as_missing_witness :
  parse_activity_history Sample.zone Sample.pow Sample.same_instant
  = Ok Sample.same_instant_stats
  /\ build_data_json Sample.zone "now" Sample.same_instant_stats "robot" "cat"
     = Ok Sample.same_instant_doc
  /\ List.length (visits Sample.same_instant_stats) = 2%nat
  /\ longest_gap Sample.same_instant_stats = Some 0
  /\ field2 "timing" "longest_gap" Sample.same_instant_doc = Some (PStr "N/A").
Proof.
  assert (H1 : parse_activity_history Sample.zone Sample.pow Sample.same_instant
               = Ok Sample.same_instant_stats) by (vm_compute; reflexivity).
  assert (H2 : build_data_json Sample.zone "now" Sample.same_instant_stats
                 "robot" "cat" = Ok Sample.same_instant_doc)
    by (vm_compute; reflexivity).
  split; [exact H1|]. split; [exact H2|]. split; [reflexivity|].
  destruct (gaps_of_zero_read_as_missing _ _ _ _ _ _ _ _ 5000000 H1 H2)
    as (Hl & _ & Hf & _).
  { vm_compute. lia. }
  { repeat constructor. }
  split; assumption.
Defined.
